(** * spk: the git-remote layer (src/lib/gitutils.ts)

    A shallow embedding of [src/lib/gitutils.ts].  The module shells out to
    git, parses remote URLs with the [git-url-parse] package and writes to a
    logger.  None of the three is part of the module, so they are gathered in
    an environment [Env]; every function is a computation over that
    environment which appends the commands it runs and the lines it logs to
    a trace. *)

From Stdlib Require Import String Ascii List Bool Arith Lia.
Import ListNotations.
Open Scope string_scope.
Open Scope list_scope.

(** ** JavaScript string primitives used by the module *)

Module JsString.

(** [s.startsWith(p)] *)
Fixpoint startsWith (s p : string) {struct p} : bool :=
  match p with
  | EmptyString => true
  | String a p' =>
      match s with
      | EmptyString => false
      | String b s' => Ascii.eqb a b && startsWith s' p'
      end
  end.

(** [s.includes(sub)]: [sub] occurs somewhere in [s].  The module only
    searches for ASCII text, for which searching bytes and searching
    characters agree. *)
Fixpoint includes (s sub : string) : bool :=
  startsWith s sub ||
  match s with
  | EmptyString => false
  | String _ rest => includes rest sub
  end.

Definition lowerAscii (c : ascii) : ascii :=
  let n := nat_of_ascii c in
  if ((65 <=? n) && (n <=? 90))%nat then ascii_of_nat (n + 32) else c.

(** [s.toLowerCase()].  Strings are byte strings here and only the letters
    A-Z are mapped.  The module compares the result with ["ssh"] and
    ["https"] only, and no character outside A-Z lowercases to one of
    s, h, t, p. *)
Fixpoint toLowerCase (s : string) : string :=
  match s with
  | EmptyString => EmptyString
  | String c rest => String (lowerAscii c) (toLowerCase rest)
  end.

(** [xs.join(sep)] *)
Definition join (sep : string) (xs : list string) : string :=
  String.concat sep xs.

End JsString.

(** ** Values thrown, and computations over the outside world *)

Module Shell.

Inductive Outcome (E A : Type) : Type :=
| Throw (e : E)
| Return (a : A).
Arguments Throw {E A} e.
Arguments Return {E A} a.

(** What the module itself can throw with [throw Error(msg)], and what
    reaches it from outside ([exec] rejecting, [GitUrlParse] throwing),
    of which only the rendering as a string is ever used. *)
Inductive Exn : Type :=
| Foreign (text : string)
| Error (message : string).

(** [String(e)], which is what [`${e}`] and ["..." + e] evaluate to.
    [Error.prototype.toString] omits the colon for an empty message. *)
Definition render (e : Exn) : string :=
  match e with
  | Foreign text => text
  | Error message =>
      if (message =? "")%string then "Error" else "Error: " ++ message
  end.

(** Members of [errorStatusCode] the module refers to. *)
Inductive errorStatusCode : Type :=
| VALIDATION_ERR
| GIT_OPS_ERR.

(** Errors leaving [getRepositoryName] and the workflow.  [errorBuilder.build]
    lives outside the module; a call to it is kept as the constructor
    [buildError] applied to its arguments. *)
Inductive Thrown : Type :=
| Raised (e : Exn)
| buildError (code : errorStatusCode) (key : string) (cause : option Exn).

Record Command : Type := mkCommand {
  program : string;
  args : list string;
  cwd : option string
}.

Inductive Level : Type := debug | info | warn | error.

Inductive Payload : Type :=
| Text (s : string)
| Obj (e : Exn).

Inductive Event : Type :=
| Exec (c : Command) (r : Outcome Exn string)
| Log (lvl : Level) (p : Payload).

(** The parsed remote-URL record of [git-url-parse], restricted to the
    fields the module reads. *)
Record GitUrl : Type := mkGitUrl {
  protocol : string;
  resource : string;
  user : string;
  pathname : string;
  token : string;
  organization : string;
  owner : string;
  name : string
}.

(** The outside world.  [shell] answers a command given everything that
    happened before it, which covers any deterministic git and file
    system. *)
Record Env : Type := mkEnv {
  APP_REPO_URL : option string;
  process_cwd : string;
  path_resolve : string -> string;
  GitUrlParse : string -> Outcome Exn GitUrl;
  shell : list Event -> Command -> Outcome Exn string
}.

Definition M (E A : Type) : Type :=
  Env -> list Event -> Outcome E A * list Event.

Definition ret {E A} (a : A) : M E A := fun _ tr => (Return a, tr).

Definition throw {E A} (e : E) : M E A := fun _ tr => (Throw e, tr).

Definition bind {E A B} (m : M E A) (k : A -> M E B) : M E B :=
  fun env tr =>
    match m env tr with
    | (Return a, tr') => k a env tr'
    | (Throw e, tr') => (Throw e, tr')
    end.

(** [try { m } catch (e) { h e }], and [m.catch(h)] on a promise. *)
Definition try_catch {E E' A} (m : M E A) (h : E -> M E' A) : M E' A :=
  fun env tr =>
    match m env tr with
    | (Return a, tr') => (Return a, tr')
    | (Throw e, tr') => h e env tr'
    end.

Definition ask {E} : M E Env := fun env tr => (Return env, tr).

(** [await exec(program, args, {cwd})] *)
Definition exec (prog : string) (arguments : list string)
    (dir : option string) : M Exn string :=
  fun env tr =>
    let c := mkCommand prog arguments dir in
    let r := shell env tr c in
    (r, tr ++ [Exec c r]).

Definition logger {E} (lvl : Level) (p : Payload) : M E unit :=
  fun _ tr => (Return tt, tr ++ [Log lvl p]).

Definition parseUrl (url : string) : M Exn GitUrl :=
  fun env tr => (GitUrlParse env url, tr).

(** A computation used where [buildError] values can be thrown as well. *)
Definition lift {A} (m : M Exn A) : M Thrown A :=
  try_catch m (fun e => throw (Raised e)).

End Shell.

Import JsString Shell.

Declare Scope js_scope.
Delimit Scope js_scope with js.
Notation "x <- m ;; k" := (bind m (fun x => k))
  (at level 61, m at next level, right associativity) : js_scope.
Notation "m ;;; k" := (bind m (fun _ => k))
  (at level 61, right associativity) : js_scope.
Open Scope js_scope.

(** ** src/lib/gitutils.ts *)

Module gitutils.

Definition safeGitUrlForLogging (repoUrl : string) : M Exn string :=
  parsedUrl <- parseUrl repoUrl ;;
  if negb (user parsedUrl =? "")%string || negb (token parsedUrl =? "")%string
  then ret (protocol parsedUrl ++ "://" ++ resource parsedUrl
            ++ pathname parsedUrl)%string
  else ret repoUrl.

(** [repoDir] defaults to [process.cwd()]. *)
Definition getCurrentBranch (repoDir : option string) : M Exn string :=
  env <- ask ;;
  let dir := match repoDir with Some d => d | None => process_cwd env end in
  try_catch
    (branch <- exec "git" ["branch"; "--show-current"]
                 (Some (path_resolve env dir)) ;;
     ret branch)
    (fun err =>
       logger error (Obj err) ;;;
       throw (Error "Unable to parse current branch from git client. Ensure 'git branch --show-current' returns a proper response")).

Definition checkoutBranch (branchName : string) (createNewBranch : bool)
    : M Exn unit :=
  try_catch
    (if createNewBranch
     then exec "git" ["checkout"; "-b"; branchName] None ;;; ret tt
     else exec "git" ["checkout"; branchName] None ;;; ret tt)
    (fun e =>
       throw (Error ("Unable to checkout git branch " ++ branchName ++ ": "
                     ++ render e)%string)).

Definition deleteBranch (branchName : string) : M Exn unit :=
  try_catch
    (exec "git" ["branch"; "-D"; branchName] None ;;; ret tt)
    (fun e =>
       throw (Error ("Unable to delete git branch " ++ branchName ++ ": "
                     ++ render e)%string)).

Definition commitPath (branchName : string) (pathspecs : list string)
    : M Exn unit :=
  try_catch
    (exec "git" ("add" :: pathspecs) None ;;;
     exec "git" ["commit"; "-m";
                    ("Adding new service: " ++ branchName)%string] None ;;;
     ret tt)
    (fun e =>
       throw (Error ("Unable to commit changes in " ++ join "," pathspecs
                     ++ " to git branch " ++ branchName ++ ": "
                     ++ render e)%string)).

Definition pushBranch (branchName : string) : M Exn unit :=
  try_catch
    (exec "git" ["push"; "-u"; "origin"; branchName] None ;;; ret tt)
    (fun err =>
       throw (Error ("Unable to push git branch " ++ branchName ++ ": "
                     ++ render err)%string)).

(** [absRepositoryPath] defaults to ["."]. *)
Definition getOriginUrl (absRepositoryPath : option string) : M Exn string :=
  let dir := match absRepositoryPath with Some d => d | None => "." end in
  try_catch
    (originUrl <- exec "git" ["config"; "--get"; "remote.origin.url"]
                    (Some dir) ;;
     safeLoggingUrl <- safeGitUrlForLogging originUrl ;;
     logger debug (Text ("Got git origin url " ++ safeLoggingUrl)%string) ;;;
     ret originUrl)
    (fun e =>
       throw (Error ("Unable to get git origin URL: " ++ render e)%string)).

(** [!process.env.APP_REPO_URL]: the variable is unset or empty. *)
Definition falsy (v : option string) : bool :=
  match v with
  | None => true
  | Some s => (s =? "")%string
  end.

Definition getAzdoOriginUrl : M Exn string :=
  try_catch
    (env <- ask ;;
     if falsy (APP_REPO_URL env)
     then throw (Error "Not running in a pipeline - no AzDO variables.")
     else
       let originUrl := match APP_REPO_URL env with
                        | Some value => value
                        | None => EmptyString
                        end in
       safeLoggingUrl <- safeGitUrlForLogging originUrl ;;
       logger debug
         (Text ("Got azdo git origin url " ++ safeLoggingUrl)%string) ;;;
       ret originUrl)
    (fun e =>
       throw (Error ("Unable to get azdo origin URL: " ++ render e)%string)).

Definition tryGetGitOrigin (absRepoPath : option string) : M Exn string :=
  try_catch getAzdoOriginUrl
    (fun _ =>
       logger warn (Text "Could not get Git Origin for Azure DevOps - are you running 'spk' _not_ in a pipeline?") ;;;
       getOriginUrl absRepoPath).

Definition getRepositoryName (originUrl : string) : M Thrown string :=
  u <- lift (parseUrl originUrl) ;;
  if includes (resource u) "dev.azure.com" then
    logger debug (Text "azure devops repo found.") ;;; ret (name u)
  else if includes (resource u) "visualstudio.com" then
    logger debug (Text "visualstudio.com repo found") ;;; ret (name u)
  else if (resource u =? "github.com")%string then
    logger debug (Text "github repo found.") ;;; ret (name u)
  else if negb (startsWith (resource u) "http") then
    throw (buildError VALIDATION_ERR "git-err-invalid-repository-url" None)
  else
    throw (buildError VALIDATION_ERR "git-err-validating-remote-git" None).

Definition invalidProtocol (originUrl proto : string) : string :=
  ("Invalid protocol found in git remote '" ++ originUrl
   ++ "'. Expected one of 'ssh' or 'https' found '" ++ proto ++ "'")%string.

Definition getRepositoryUrl (originUrl : string) : M Exn string :=
  u <- parseUrl originUrl ;;
  if includes (resource u) "dev.azure.com" then
    logger debug (Text "azure devops repo found.") ;;;
    ret ("https://dev.azure.com/" ++ organization u ++ "/" ++ owner u
         ++ "/_git/" ++ name u)%string
  else if includes (resource u) "visualstudio.com" then
    logger debug (Text "visualstudio.com repo found") ;;;
    if (toLowerCase (protocol u) =? "ssh")%string then
      ret ("https://" ++ organization u ++ ".visualstudio.com/" ++ owner u
           ++ "/_git/" ++ name u)%string
    else if (toLowerCase (protocol u) =? "https")%string then
      ret ("https://" ++ resource u ++ "/" ++ owner u ++ "/_git/"
           ++ name u)%string
    else throw (Error (invalidProtocol originUrl (protocol u)))
  else if (resource u =? "github.com")%string then
    logger debug (Text "github repo found.") ;;;
    ret ("https://github.com/" ++ organization u ++ "/" ++ name u)%string
  else
    throw (Error "Could not determine origin repository, or it is not a supported type.").

(** The one-character string holding a double quote. *)
Definition dquote : string := String (ascii_of_nat 34) EmptyString.

(** What the catch clause of [getPullRequestLink] throws. *)
Definition undeterminedProvider (e : Exn) : Exn :=
  Error (dquote ++ "Could not determine git provider, or it is not a supported type."
         ++ dquote ++ ": " ++ render e)%string.

Definition unsupportedProviderHelp : string :=
  "Could not determine origin repository, or it is not a supported provider. Please check for the newly pushed branch and open a PR manually.".

Definition pullrequestcreate (newBranch baseBranch : string) : string :=
  ("/pullrequestcreate?sourceRef=" ++ newBranch ++ "&targetRef="
   ++ baseBranch)%string.

Definition getPullRequestLink (baseBranch newBranch originUrl : string)
    : M Exn string :=
  try_catch
    (u <- parseUrl originUrl ;;
     if includes (resource u) "dev.azure.com" then
       logger debug (Text "azure devops repo found.") ;;;
       ret ("https://dev.azure.com/" ++ organization u ++ "/" ++ owner u
            ++ "/_git/" ++ name u
            ++ pullrequestcreate newBranch baseBranch)%string
     else if includes (resource u) "visualstudio.com" then
       logger debug (Text "visualstudio.com repo found") ;;;
       if (toLowerCase (protocol u) =? "ssh")%string then
         ret ("https://" ++ organization u ++ ".visualstudio.com/"
              ++ owner u ++ "/_git/" ++ name u
              ++ pullrequestcreate newBranch baseBranch)%string
       else if (toLowerCase (protocol u) =? "https")%string then
         ret ("https://" ++ resource u ++ "/" ++ owner u ++ "/_git/"
              ++ name u ++ pullrequestcreate newBranch baseBranch)%string
       else throw (Error (invalidProtocol originUrl (protocol u)))
     else if (resource u =? "github.com")%string then
       logger debug (Text "github repo found.") ;;;
       ret ("https://github.com/" ++ organization u ++ "/" ++ name u
            ++ "/compare/" ++ baseBranch ++ "..." ++ newBranch
            ++ "?expand=1")%string
     else
       logger error (Text "Could not determine origin repository, or it is not a supported type.") ;;;
       ret unsupportedProviderHelp)
    (fun e => throw (undeterminedProvider e)).

Definition checkoutCommitPushCreatePRLink (newBranchName : string)
    (pathspecs : list string) : M Thrown unit :=
  try_catch
    (currentBranch <-
       try_catch (getCurrentBranch None)
         (fun e => throw (Error ("Cannot fetch current branch. Changes will have to be manually committed. "
                                 ++ render e)%string)) ;;
     try_catch (checkoutBranch newBranchName true)
       (fun e => throw (Error ("Cannot create and checkout new branch "
                               ++ newBranchName
                               ++ ". Changes will have to be manually committed. "
                               ++ render e)%string)) ;;;
     try_catch (commitPath newBranchName pathspecs)
       (fun e => throw (Error ("Cannot commit changes in "
                               ++ join ", " pathspecs ++ " to branch "
                               ++ newBranchName
                               ++ ". Changes will have to be manually committed. "
                               ++ render e)%string)) ;;;
     try_catch (pushBranch newBranchName)
       (fun e => throw (Error ("Cannot push branch " ++ newBranchName
                               ++ ". Changes will have to be manually committed. "
                               ++ render e)%string)) ;;;
     originUrl <- getOriginUrl None ;;
     pullRequestLink <-
       try_catch (getPullRequestLink currentBranch newBranchName originUrl)
         (fun e => throw (Error ("Could not create link for Pull Request. It will need to be done manually. "
                                 ++ render e)%string)) ;;
     logger info (Text ("Link to create PR: " ++ pullRequestLink)%string) ;;;
     try_catch (checkoutBranch currentBranch false)
       (fun e => throw (Error ("Cannot checkout original branch "
                               ++ currentBranch
                               ++ ". Clean up will need to be done manually. "
                               ++ render e)%string)) ;;;
     try_catch (deleteBranch newBranchName)
       (fun e => throw (Error ("Cannot delete new branch " ++ newBranchName
                               ++ ". Cleanup will need to be done manually. "
                               ++ render e)%string)))
    (fun err =>
       throw (buildError GIT_OPS_ERR
                "git-checkout-commit-push-create-PR-link" (Some err))).

End gitutils.

(** ** Reading a trace *)

Module Trace.

Definition commands (tr : list Event) : list Command :=
  flat_map (fun ev => match ev with Exec c _ => [c] | Log _ _ => [] end) tr.

Definition isLog (ev : Event) : bool :=
  match ev with Log _ _ => true | Exec _ _ => false end.

Definition failed (ev : Event) : bool :=
  match ev with Exec _ (Throw _) => true | _ => false end.

(** Nothing is run once a command has failed: no retry, no later step. *)
Fixpoint stopsAtFailure (tr : list Event) : bool :=
  match tr with
  | [] => true
  | ev :: rest => if failed ev then forallb isLog rest else stopsAtFailure rest
  end.

Fixpoint eqb_list (xs ys : list string) : bool :=
  match xs, ys with
  | [], [] => true
  | x :: xs', y :: ys' => (x =? y)%string && eqb_list xs' ys'
  | _, _ => false
  end.

Definition eqb_dir (a b : option string) : bool :=
  match a, b with
  | None, None => true
  | Some x, Some y => (x =? y)%string
  | _, _ => false
  end.

Definition eqb_command (a b : Command) : bool :=
  (program a =? program b)%string && eqb_list (args a) (args b)
  && eqb_dir (cwd a) (cwd b).

(** [a] is run, and [b] is run some time after its first run. *)
Fixpoint precedes (a b : Command) (cs : list Command) : bool :=
  match cs with
  | [] => false
  | c :: rest =>
      if eqb_command c a then existsb (eqb_command b) rest
      else precedes a b rest
  end.

(** The wording by which the module tells its caller that the work is left
    to them: each such sentence says it has to be done ["manually"]. *)
Definition mentionsManualRemediation (msg : string) : bool :=
  includes msg "manually".

(** What [safeGitUrlForLogging] returns for a URL that parses as [u]. *)
Definition loggedForm (u : GitUrl) (repoUrl : string) : string :=
  if negb (user u =? "")%string || negb (token u =? "")%string
  then (protocol u ++ "://" ++ resource u ++ pathname u)%string
  else repoUrl.

Definition showCurrent (env : Env) : Command :=
  mkCommand "git" ["branch"; "--show-current"]
    (Some (path_resolve env (process_cwd env))).

Definition createBranch (newBranchName : string) : Command :=
  mkCommand "git" ["checkout"; "-b"; newBranchName] None.

Definition addPaths (pathspecs : list string) : Command :=
  mkCommand "git" ("add" :: pathspecs) None.

Definition commit (newBranchName : string) : Command :=
  mkCommand "git"
    ["commit"; "-m"; ("Adding new service: " ++ newBranchName)%string] None.

Definition push (newBranchName : string) : Command :=
  mkCommand "git" ["push"; "-u"; "origin"; newBranchName] None.

Definition originQuery (dir : string) : Command :=
  mkCommand "git" ["config"; "--get"; "remote.origin.url"] (Some dir).

Definition checkout (branch : string) : Command :=
  mkCommand "git" ["checkout"; branch] None.

Definition deleteLocal (branch : string) : Command :=
  mkCommand "git" ["branch"; "-D"; branch] None.

(** Every line the resolver operations can log. *)
Definition resolverLines : list Event :=
  [ Log debug (Text "azure devops repo found.");
    Log debug (Text "visualstudio.com repo found");
    Log debug (Text "github repo found.");
    Log error (Text "Could not determine origin repository, or it is not a supported type.") ].

(** What a run of the workflow does that its user can see: the commands it
    runs and the lines it logs at level info. *)
Inductive Step : Type :=
| Ran (c : Command)
| Announced (msg : string).

Definition steps (tr : list Event) : list Step :=
  flat_map (fun ev => match ev with
                      | Exec c _ => [Ran c]
                      | Log info (Text msg) => [Announced msg]
                      | Log _ _ => []
                      end) tr.

(** The steps of a whole run of the workflow, in the order in which
    [checkoutCommitPushCreatePRLink] takes them. *)
Definition workflowSteps (env : Env) (currentBranch newBranchName : string)
    (pathspecs : list string) (pullRequestLink : string) : list Step :=
  [ Ran (showCurrent env); Ran (createBranch newBranchName);
    Ran (addPaths pathspecs); Ran (commit newBranchName);
    Ran (push newBranchName); Ran (originQuery ".");
    Announced ("Link to create PR: " ++ pullRequestLink)%string;
    Ran (checkout currentBranch); Ran (deleteLocal newBranchName) ].

(** The branch the workflow returns to: the answer to its first command. *)
Definition startingBranch (env : Env) : string :=
  match shell env [] (showCurrent env) with
  | Return branch => branch
  | Throw _ => EmptyString
  end.

End Trace.

(** ** What holds of every run of the workflow *)

Module Workflow.

Import gitutils Trace.

Definition workflowKey : string := "git-checkout-commit-push-create-PR-link".

Definition WorkflowFacts (env : Env) (newBranchName : string)
    (pathspecs : list string) (run : Outcome Thrown unit * list Event)
    : Prop :=
  (exists link rest,
     workflowSteps env (startingBranch env) newBranchName pathspecs link
     = steps (snd run) ++ rest)
  /\ stopsAtFailure (snd run) = true
  /\ (existsb failed (snd run) = true -> fst run <> Return tt)
  /\ (fst run = Return tt ->
      exists originUrl link,
        steps (snd run)
        = workflowSteps env (startingBranch env) newBranchName pathspecs link
        /\ In (Exec (originQuery ".") (Return originUrl)) (snd run)
        /\ fst (getPullRequestLink (startingBranch env) newBranchName
                  originUrl env []) = Return link)
  /\ (forall f, fst run = Throw f ->
      exists m,
        f = buildError GIT_OPS_ERR workflowKey (Some (Error m))
        /\ (mentionsManualRemediation m = true
            \/ exists t, m = ("Unable to get git origin URL: " ++ t)%string))
  /\ (forall f, fst run = Throw f -> existsb failed (snd run) = false ->
      commands (snd run)
      = [ showCurrent env; createBranch newBranchName; addPaths pathspecs;
          commit newBranchName; push newBranchName; originQuery "." ]).

End Workflow.

(** ** Sample worlds, for evaluating the module on concrete inputs *)

Module Sample.

Definition isBlank (s : string) : bool :=
  forallb (fun c => (nat_of_ascii c =? 32)%nat || (nat_of_ascii c =? 9)%nat
                    || (nat_of_ascii c =? 10)%nat)
    (list_ascii_of_string s).

(** Remotes and the records they parse to.  For the last four, what is
    evaluated on them below depends on the protocol and the resource only. *)
Definition known : list (string * GitUrl) :=
  [ ("https://github.com/CatalystCode/spk.git",
     mkGitUrl "https" "github.com" "" "/CatalystCode/spk.git" ""
       "CatalystCode" "CatalystCode" "spk");
    ("git@github.com:CatalystCode/spk.git",
     mkGitUrl "ssh" "github.com" "git" "/CatalystCode/spk.git" ""
       "CatalystCode" "CatalystCode" "spk");
    ("https://user@dev.azure.com/myorg/spk-test-project/_git/new-repo",
     mkGitUrl "https" "dev.azure.com" "user"
       "/myorg/spk-test-project/_git/new-repo" ""
       "myorg" "spk-test-project" "new-repo");
    ("git@vs-ssh.visualstudio.com:v3/myorg/spk-test-project/new-repo",
     mkGitUrl "ssh" "vs-ssh.visualstudio.com" "git"
       "/v3/myorg/spk-test-project/new-repo" ""
       "myorg" "spk-test-project" "new-repo");
    ("HTTPS://myorg.visualstudio.com/spk-test-project/_git/new-repo",
     mkGitUrl "HTTPS" "myorg.visualstudio.com" ""
       "/spk-test-project/_git/new-repo" ""
       "spk-test-project" "spk-test-project" "new-repo");
    ("ftp://myorg.visualstudio.com/spk-test-project/_git/new-repo",
     mkGitUrl "ftp" "myorg.visualstudio.com" ""
       "/spk-test-project/_git/new-repo" ""
       "spk-test-project" "spk-test-project" "new-repo");
    ("https://dev.azure.com.visualstudio.com/spk-test-project/_git/new-repo",
     mkGitUrl "https" "dev.azure.com.visualstudio.com" ""
       "/spk-test-project/_git/new-repo" ""
       "spk-test-project" "spk-test-project" "new-repo");
    ("https://gitlab.com/group/project.git",
     mkGitUrl "https" "gitlab.com" "" "/group/project.git" ""
       "group" "group" "project") ].

Fixpoint lookup (url : string) (table : list (string * GitUrl))
    : option GitUrl :=
  match table with
  | [] => None
  | (k, u) :: rest => if (k =? url)%string then Some u else lookup url rest
  end.

(** A stand-in for [git-url-parse] on the remotes listed in [known].  A
    blank string is rejected, as the package's URL parser does; any other
    string is outside the sample. *)
Definition parse (url : string) : Outcome Exn GitUrl :=
  if isBlank url then Throw (Foreign "Error: Invalid url.")
  else match lookup url known with
       | Some u => Return u
       | None => Throw (Foreign "Error: not a sample remote")
       end.

(** A repository on branch master whose origin is [origin] and in which
    every git command succeeds. *)
Definition git (origin : string) (_ : list Event) (c : Command)
    : Outcome Exn string :=
  if Trace.eqb_list (args c) ["branch"; "--show-current"] then Return "master"
  else if Trace.eqb_list (args c) ["config"; "--get"; "remote.origin.url"]
  then Return origin
  else Return "".

(** The same repository, except that commands whose first argument is
    [sub] are rejected with [text]. *)
Definition gitFailing (sub text origin : string) (tr : list Event)
    (c : Command) : Outcome Exn string :=
  match args c with
  | a :: _ => if (a =? sub)%string then Throw (Foreign text)
              else git origin tr c
  | [] => git origin tr c
  end.

Definition world (appRepoUrl : option string)
    (sh : list Event -> Command -> Outcome Exn string) : Env :=
  mkEnv appRepoUrl "/home/dev/app" (fun p => p) parse sh.

End Sample.

Import gitutils Trace Workflow.

(** ** The rest of gitutils.ts *)

(** The options bag of commands/project/pipeline, restricted to the one
    field the module reads; an option that was not given is [None]. *)
Record CommandOptions : Type := mkCommandOptions {
  repoUrl : option string
}.

(** [opts.repoUrl || getRepositoryUrl(gitOriginUrl)]: the right operand is
    evaluated only when the left one is undefined or empty. *)
Definition validateRepoUrl (opts : CommandOptions) (gitOriginUrl : string)
    : M Exn string :=
  if falsy (repoUrl opts) then getRepositoryUrl gitOriginUrl
  else ret match repoUrl opts with
           | Some value => value
           | None => EmptyString
           end.

(** The same world with another value of APP_REPO_URL. *)
Definition withAppRepoUrl (value : option string) (env : Env) : Env :=
  mkEnv value (process_cwd env) (path_resolve env) (GitUrlParse env)
    (shell env).

(** The tail of a pull request link after the repository URL. *)
Definition compareSuffix (baseBranch newBranch : string) : string :=
  ("/compare/" ++ baseBranch ++ "..." ++ newBranch ++ "?expand=1")%string.

(** What the workflow throws when its first command fails. *)
Definition noCurrentBranch : string :=
  "Cannot fetch current branch. Changes will have to be manually committed. Error: Unable to parse current branch from git client. Ensure 'git branch --show-current' returns a proper response".

(** Further facts of a run of the workflow: when it returns, what becomes of
    the text of a failing command, and how often a command is run. *)
Definition WorkflowOutcomes (env : Env) (newBranchName : string)
    (run : Outcome Thrown unit * list Event) : Prop :=
  (forall url link,
     existsb failed (snd run) = false ->
     In (Exec (originQuery ".") (Return url)) (snd run) ->
     fst (getPullRequestLink (startingBranch env) newBranchName url env [])
     = Return link ->
     fst run = Return tt
     /\ In (Log info (Text ("Link to create PR: " ++ link)%string)) (snd run))
  /\ (forall c e,
        In (Exec c (Throw e)) (snd run) ->
        exists m,
          fst run = Throw (buildError GIT_OPS_ERR workflowKey (Some (Error m)))
          /\ (c <> showCurrent env ->
              exists pre, m = (pre ++ render e)%string)
          /\ (c = showCurrent env ->
              m = noCurrentBranch /\ In (Log error (Obj e)) (snd run)))
  /\ NoDup (commands (snd run))
  /\ length (commands (snd run)) <= 8.

(** A computation that runs and ends the same way whatever APP_REPO_URL
    holds. *)
Definition unaffectedBy (value : option string) (env : Env) {E A : Type}
    (m : M E A) : Prop :=
  forall tr, m (withAppRepoUrl value env) tr = m env tr.

(** ** The resolver: provider templates *)

Ltac step_monad :=
  unfold lift; unfold bind, try_catch, parseUrl, logger, ret, throw, ask.

Lemma getRepositoryUrl_parsed env originUrl u tr :
  GitUrlParse env originUrl = Return u ->
  getRepositoryUrl originUrl env tr =
  if includes (resource u) "dev.azure.com" then
    (Return ("https://dev.azure.com/" ++ organization u ++ "/" ++ owner u
             ++ "/_git/" ++ name u)%string,
     tr ++ [Log debug (Text "azure devops repo found.")])
  else if includes (resource u) "visualstudio.com" then
    (if (toLowerCase (protocol u) =? "ssh")%string then
       Return ("https://" ++ organization u ++ ".visualstudio.com/" ++ owner u
               ++ "/_git/" ++ name u)%string
     else if (toLowerCase (protocol u) =? "https")%string then
       Return ("https://" ++ resource u ++ "/" ++ owner u ++ "/_git/"
               ++ name u)%string
     else Throw (Error (invalidProtocol originUrl (protocol u))),
     tr ++ [Log debug (Text "visualstudio.com repo found")])
  else if (resource u =? "github.com")%string then
    (Return ("https://github.com/" ++ organization u ++ "/" ++ name u)%string,
     tr ++ [Log debug (Text "github repo found.")])
  else
    (Throw (Error "Could not determine origin repository, or it is not a supported type."),
     tr).
Proof.
  intros Hp. unfold getRepositoryUrl. step_monad. rewrite Hp.
  destruct (includes (resource u) "dev.azure.com"); [reflexivity|].
  destruct (includes (resource u) "visualstudio.com").
  - destruct (toLowerCase (protocol u) =? "ssh")%string; [reflexivity|].
    destruct (toLowerCase (protocol u) =? "https")%string; reflexivity.
  - destruct (resource u =? "github.com")%string; reflexivity.
Qed.

Lemma getPullRequestLink_parsed env baseBranch newBranch originUrl u tr :
  GitUrlParse env originUrl = Return u ->
  getPullRequestLink baseBranch newBranch originUrl env tr =
  if includes (resource u) "dev.azure.com" then
    (Return ("https://dev.azure.com/" ++ organization u ++ "/" ++ owner u
             ++ "/_git/" ++ name u
             ++ pullrequestcreate newBranch baseBranch)%string,
     tr ++ [Log debug (Text "azure devops repo found.")])
  else if includes (resource u) "visualstudio.com" then
    (if (toLowerCase (protocol u) =? "ssh")%string then
       Return ("https://" ++ organization u ++ ".visualstudio.com/" ++ owner u
               ++ "/_git/" ++ name u
               ++ pullrequestcreate newBranch baseBranch)%string
     else if (toLowerCase (protocol u) =? "https")%string then
       Return ("https://" ++ resource u ++ "/" ++ owner u ++ "/_git/"
               ++ name u ++ pullrequestcreate newBranch baseBranch)%string
     else Throw (undeterminedProvider
                   (Error (invalidProtocol originUrl (protocol u)))),
     tr ++ [Log debug (Text "visualstudio.com repo found")])
  else if (resource u =? "github.com")%string then
    (Return ("https://github.com/" ++ organization u ++ "/" ++ name u
             ++ "/compare/" ++ baseBranch ++ "..." ++ newBranch
             ++ "?expand=1")%string,
     tr ++ [Log debug (Text "github repo found.")])
  else
    (Return unsupportedProviderHelp,
     tr ++ [Log error (Text "Could not determine origin repository, or it is not a supported type.")]).
Proof.
  intros Hp. unfold getPullRequestLink. step_monad. rewrite Hp.
  destruct (includes (resource u) "dev.azure.com"); [reflexivity|].
  destruct (includes (resource u) "visualstudio.com").
  - destruct (toLowerCase (protocol u) =? "ssh")%string; [reflexivity|].
    destruct (toLowerCase (protocol u) =? "https")%string; reflexivity.
  - destruct (resource u =? "github.com")%string; reflexivity.
Qed.

Lemma getPullRequestLink_unparsed env baseBranch newBranch originUrl e tr :
  GitUrlParse env originUrl = Throw e ->
  getPullRequestLink baseBranch newBranch originUrl env tr =
  (Throw (undeterminedProvider e), tr).
Proof.
  intros Hp. unfold getPullRequestLink. step_monad. rewrite Hp. reflexivity.
Qed.

Lemma getRepositoryName_parsed env originUrl u tr :
  GitUrlParse env originUrl = Return u ->
  getRepositoryName originUrl env tr =
  if includes (resource u) "dev.azure.com" then
    (Return (name u), tr ++ [Log debug (Text "azure devops repo found.")])
  else if includes (resource u) "visualstudio.com" then
    (Return (name u), tr ++ [Log debug (Text "visualstudio.com repo found")])
  else if (resource u =? "github.com")%string then
    (Return (name u), tr ++ [Log debug (Text "github repo found.")])
  else if negb (startsWith (resource u) "http") then
    (Throw (buildError VALIDATION_ERR "git-err-invalid-repository-url" None), tr)
  else
    (Throw (buildError VALIDATION_ERR "git-err-validating-remote-git" None), tr).
Proof.
  intros Hp. unfold getRepositoryName. step_monad. rewrite Hp.
  destruct (includes (resource u) "dev.azure.com"); [reflexivity|].
  destruct (includes (resource u) "visualstudio.com"); [reflexivity|].
  destruct (resource u =? "github.com")%string; [reflexivity|].
  destruct (negb (startsWith (resource u) "http")); reflexivity.
Qed.

(** C4.  When the parsed resource of the remote contains dev.azure.com,
    [getRepositoryUrl] returns exactly
    https://dev.azure.com/{organization}/{owner}/_git/{name}, after logging
    one debug line; [getPullRequestLink] builds its link on the same URL. *)
Theorem getRepositoryUrl_dev_azure env originUrl u tr :
  GitUrlParse env originUrl = Return u ->
  includes (resource u) "dev.azure.com" = true ->
  getRepositoryUrl originUrl env tr =
    (Return ("https://dev.azure.com/" ++ organization u ++ "/" ++ owner u
             ++ "/_git/" ++ name u)%string,
     tr ++ [Log debug (Text "azure devops repo found.")])
  /\ forall baseBranch newBranch,
       fst (getPullRequestLink baseBranch newBranch originUrl env tr) =
       Return ("https://dev.azure.com/" ++ organization u ++ "/" ++ owner u
               ++ "/_git/" ++ name u
               ++ pullrequestcreate newBranch baseBranch)%string.
Proof.
  intros Hp Hinc. split.
  - rewrite (getRepositoryUrl_parsed _ _ _ _ Hp), Hinc. reflexivity.
  - intros b n.
    rewrite (getPullRequestLink_parsed _ _ _ _ _ _ Hp), Hinc. reflexivity.
Qed.

Lemma getRepositoryUrl_dev_azure_sample :
  getRepositoryUrl
    "https://user@dev.azure.com/myorg/spk-test-project/_git/new-repo"
    (Sample.world None (Sample.git "")) [] =
  (Return "https://dev.azure.com/myorg/spk-test-project/_git/new-repo",
   [Log debug (Text "azure devops repo found.")]).
Proof.
  exact (proj1 (getRepositoryUrl_dev_azure
                  (Sample.world None (Sample.git ""))
                  "https://user@dev.azure.com/myorg/spk-test-project/_git/new-repo"
                  _ [] eq_refl eq_refl)).
Defined.

(** C5.  When the parsed resource of the remote is github.com,
    [getRepositoryUrl] returns exactly
    https://github.com/{organization}/{name}. *)
Theorem getRepositoryUrl_github env originUrl u tr :
  GitUrlParse env originUrl = Return u ->
  resource u = "github.com" ->
  getRepositoryUrl originUrl env tr =
    (Return ("https://github.com/" ++ organization u ++ "/" ++ name u)%string,
     tr ++ [Log debug (Text "github repo found.")]).
Proof.
  intros Hp Hr.
  rewrite (getRepositoryUrl_parsed _ _ _ _ Hp), Hr. reflexivity.
Qed.

Lemma getRepositoryUrl_github_sample :
  getRepositoryUrl "git@github.com:CatalystCode/spk.git"
    (Sample.world None (Sample.git "")) [] =
  (Return "https://github.com/CatalystCode/spk",
   [Log debug (Text "github repo found.")]).
Proof.
  exact (getRepositoryUrl_github (Sample.world None (Sample.git ""))
           "git@github.com:CatalystCode/spk.git" _ [] eq_refl eq_refl).
Defined.

(** C10.  For a remote of a supported provider (resource containing
    dev.azure.com, or containing visualstudio.com with protocol ssh or https,
    or equal to github.com), [getRepositoryUrl] and [getPullRequestLink] both
    return, and what they return begins with https://, whatever the protocol
    of the remote. *)
Theorem supported_links_begin_with_https
    env originUrl u baseBranch newBranch tr :
  GitUrlParse env originUrl = Return u ->
  includes (resource u) "dev.azure.com" = true
  \/ (includes (resource u) "visualstudio.com" = true
      /\ (protocol u = "ssh" \/ protocol u = "https"))
  \/ resource u = "github.com" ->
  (exists link, fst (getRepositoryUrl originUrl env tr) = Return link
                /\ startsWith link "https://" = true)
  /\ (exists link,
        fst (getPullRequestLink baseBranch newBranch originUrl env tr)
        = Return link
        /\ startsWith link "https://" = true).
Proof.
  intros Hp Hsupported.
  rewrite (getRepositoryUrl_parsed _ _ _ _ Hp).
  rewrite (getPullRequestLink_parsed _ _ _ _ _ _ Hp).
  destruct (includes (resource u) "dev.azure.com") eqn:Hazure.
  { split; eexists; split; reflexivity. }
  destruct Hsupported as [Habs | [[Hvs Hproto] | Hgh]].
  - discriminate Habs.
  - rewrite Hvs.
    destruct Hproto as [Hproto | Hproto]; rewrite Hproto;
      split; eexists; split; reflexivity.
  - rewrite Hgh. split; eexists; split; reflexivity.
Qed.

Lemma supported_links_begin_with_https_sample :
  (exists link,
     fst (getRepositoryUrl
            "git@vs-ssh.visualstudio.com:v3/myorg/spk-test-project/new-repo"
            (Sample.world None (Sample.git "")) []) = Return link
     /\ startsWith link "https://" = true)
  /\ (exists link,
        fst (getPullRequestLink "master" "feature"
               "git@vs-ssh.visualstudio.com:v3/myorg/spk-test-project/new-repo"
               (Sample.world None (Sample.git "")) []) = Return link
        /\ startsWith link "https://" = true).
Proof.
  exact (supported_links_begin_with_https
           (Sample.world None (Sample.git ""))
           "git@vs-ssh.visualstudio.com:v3/myorg/spk-test-project/new-repo"
           _ "master" "feature" [] eq_refl
           (or_intror (or_introl (conj eq_refl (or_introl eq_refl))))).
Defined.

(** C3, as the code has it.  For a remote whose parsed resource contains
    visualstudio.com and does not contain dev.azure.com (which is tested
    first): when the protocol, lowercased, is ssh, [getRepositoryUrl] and
    [getPullRequestLink] build on https://{organization}.visualstudio.com/;
    when it is https, on https://{resource}/; for any protocol that is
    neither, once lowercased, both throw. *)
Theorem visualstudio_links env originUrl u baseBranch newBranch tr :
  GitUrlParse env originUrl = Return u ->
  includes (resource u) "visualstudio.com" = true ->
  includes (resource u) "dev.azure.com" = false ->
  (toLowerCase (protocol u) = "ssh" ->
     fst (getRepositoryUrl originUrl env tr) =
       Return ("https://" ++ organization u ++ ".visualstudio.com/"
               ++ owner u ++ "/_git/" ++ name u)%string
     /\ fst (getPullRequestLink baseBranch newBranch originUrl env tr) =
       Return ("https://" ++ organization u ++ ".visualstudio.com/"
               ++ owner u ++ "/_git/" ++ name u
               ++ pullrequestcreate newBranch baseBranch)%string)
  /\ (toLowerCase (protocol u) = "https" ->
        fst (getRepositoryUrl originUrl env tr) =
          Return ("https://" ++ resource u ++ "/" ++ owner u ++ "/_git/"
                  ++ name u)%string
        /\ fst (getPullRequestLink baseBranch newBranch originUrl env tr) =
          Return ("https://" ++ resource u ++ "/" ++ owner u ++ "/_git/"
                  ++ name u ++ pullrequestcreate newBranch baseBranch)%string)
  /\ (toLowerCase (protocol u) <> "ssh" ->
      toLowerCase (protocol u) <> "https" ->
        fst (getRepositoryUrl originUrl env tr) =
          Throw (Error (invalidProtocol originUrl (protocol u)))
        /\ fst (getPullRequestLink baseBranch newBranch originUrl env tr) =
          Throw (undeterminedProvider
                   (Error (invalidProtocol originUrl (protocol u))))).
Proof.
  intros Hp Hvs Hazure.
  rewrite (getRepositoryUrl_parsed _ _ _ _ Hp).
  rewrite (getPullRequestLink_parsed _ _ _ _ _ _ Hp).
  rewrite Hazure, Hvs.
  split; [|split].
  - intros Hssh. rewrite Hssh. split; reflexivity.
  - intros Hhttps. rewrite Hhttps. split; reflexivity.
  - intros Hssh Hhttps. apply String.eqb_neq in Hssh, Hhttps.
    rewrite Hssh, Hhttps. split; reflexivity.
Qed.

Lemma visualstudio_links_sample :
  fst (getRepositoryUrl
         "git@vs-ssh.visualstudio.com:v3/myorg/spk-test-project/new-repo"
         (Sample.world None (Sample.git "")) []) =
    Return "https://myorg.visualstudio.com/spk-test-project/_git/new-repo"
  /\ fst (getPullRequestLink "master" "feature"
            "git@vs-ssh.visualstudio.com:v3/myorg/spk-test-project/new-repo"
            (Sample.world None (Sample.git "")) []) =
    Return "https://myorg.visualstudio.com/spk-test-project/_git/new-repo/pullrequestcreate?sourceRef=feature&targetRef=master".
Proof.
  exact (proj1 (visualstudio_links
                  (Sample.world None (Sample.git ""))
                  "git@vs-ssh.visualstudio.com:v3/myorg/spk-test-project/new-repo"
                  _ "master" "feature" [] eq_refl eq_refl eq_refl) eq_refl).
Defined.

(** C3 as worded fails twice.  A visualstudio.com remote whose protocol is
    HTTPS, which is neither ssh nor https, is not rejected: the protocol is
    lowercased before it is compared.  And a remote whose resource contains
    visualstudio.com, with protocol https, is not built on its resource host
    when the resource contains dev.azure.com as well. *)
Lemma visualstudio_links_as_worded_fail :
  (exists originUrl u,
     GitUrlParse (Sample.world None (Sample.git "")) originUrl = Return u
     /\ includes (resource u) "visualstudio.com" = true
     /\ protocol u <> "ssh" /\ protocol u <> "https"
     /\ fst (getRepositoryUrl originUrl
               (Sample.world None (Sample.git "")) []) =
        Return "https://myorg.visualstudio.com/spk-test-project/_git/new-repo"
     /\ fst (getPullRequestLink "master" "feature" originUrl
               (Sample.world None (Sample.git "")) []) =
        Return "https://myorg.visualstudio.com/spk-test-project/_git/new-repo/pullrequestcreate?sourceRef=feature&targetRef=master")
  /\ (exists originUrl u,
        GitUrlParse (Sample.world None (Sample.git "")) originUrl = Return u
        /\ includes (resource u) "visualstudio.com" = true
        /\ protocol u = "https"
        /\ fst (getRepositoryUrl originUrl
                  (Sample.world None (Sample.git "")) []) <>
           Return ("https://" ++ resource u ++ "/" ++ owner u ++ "/_git/"
                   ++ name u)%string).
Proof.
  split.
  - exists "HTTPS://myorg.visualstudio.com/spk-test-project/_git/new-repo".
    eexists. split; [reflexivity|].
    repeat split; try reflexivity; discriminate.
  - exists "https://dev.azure.com.visualstudio.com/spk-test-project/_git/new-repo".
    eexists. split; [reflexivity|].
    repeat split; try reflexivity. discriminate.
Qed.

(** C2, as the code has it.  For a remote whose parsed resource names none of
    the supported providers, [getRepositoryName] throws a VALIDATION_ERR
    error, [getRepositoryUrl] throws a plain Error, and [getPullRequestLink]
    does not fail: it logs an error and returns a sentence asking for the
    pull request to be opened manually.  For a visualstudio.com remote whose
    protocol, lowercased, is neither ssh nor https, [getRepositoryUrl] and
    [getPullRequestLink] throw, while [getRepositoryName], which does not
    look at the protocol, returns the repository name. *)
Theorem unsupported_remote env originUrl u baseBranch newBranch tr :
  GitUrlParse env originUrl = Return u ->
  includes (resource u) "dev.azure.com" = false ->
  (includes (resource u) "visualstudio.com" = false ->
   resource u <> "github.com" ->
     (exists key,
        getRepositoryName originUrl env tr =
        (Throw (buildError VALIDATION_ERR key None), tr))
     /\ getRepositoryUrl originUrl env tr =
        (Throw (Error "Could not determine origin repository, or it is not a supported type."),
         tr)
     /\ getPullRequestLink baseBranch newBranch originUrl env tr =
        (Return unsupportedProviderHelp,
         tr ++ [Log error (Text "Could not determine origin repository, or it is not a supported type.")]))
  /\ (includes (resource u) "visualstudio.com" = true ->
      toLowerCase (protocol u) <> "ssh" ->
      toLowerCase (protocol u) <> "https" ->
        getRepositoryName originUrl env tr =
        (Return (name u),
         tr ++ [Log debug (Text "visualstudio.com repo found")])
        /\ getRepositoryUrl originUrl env tr =
           (Throw (Error (invalidProtocol originUrl (protocol u))),
            tr ++ [Log debug (Text "visualstudio.com repo found")])
        /\ getPullRequestLink baseBranch newBranch originUrl env tr =
           (Throw (undeterminedProvider
                     (Error (invalidProtocol originUrl (protocol u)))),
            tr ++ [Log debug (Text "visualstudio.com repo found")])).
Proof.
  intros Hp Hazure.
  rewrite (getRepositoryName_parsed _ _ _ _ Hp).
  rewrite (getRepositoryUrl_parsed _ _ _ _ Hp).
  rewrite (getPullRequestLink_parsed _ _ _ _ _ _ Hp).
  rewrite Hazure. split.
  - intros Hvs Hgh. apply String.eqb_neq in Hgh. rewrite Hvs, Hgh.
    split; [|split; reflexivity].
    destruct (negb (startsWith (resource u) "http")); eexists; reflexivity.
  - intros Hvs Hssh Hhttps. apply String.eqb_neq in Hssh, Hhttps.
    rewrite Hvs, Hssh, Hhttps. repeat split.
Qed.

Lemma unsupported_remote_sample :
  ((exists key,
      getRepositoryName "https://gitlab.com/group/project.git"
        (Sample.world None (Sample.git "")) [] =
      (Throw (buildError VALIDATION_ERR key None), []))
   /\ getRepositoryUrl "https://gitlab.com/group/project.git"
        (Sample.world None (Sample.git "")) [] =
      (Throw (Error "Could not determine origin repository, or it is not a supported type."),
       [])
   /\ getPullRequestLink "master" "feature"
        "https://gitlab.com/group/project.git"
        (Sample.world None (Sample.git "")) [] =
      (Return unsupportedProviderHelp,
       [Log error (Text "Could not determine origin repository, or it is not a supported type.")]))
  /\ fst (getRepositoryUrl
            "ftp://myorg.visualstudio.com/spk-test-project/_git/new-repo"
            (Sample.world None (Sample.git "")) []) =
     Throw (Error "Invalid protocol found in git remote 'ftp://myorg.visualstudio.com/spk-test-project/_git/new-repo'. Expected one of 'ssh' or 'https' found 'ftp'").
Proof.
  split.
  - refine (proj1 (unsupported_remote
                     (Sample.world None (Sample.git ""))
                     "https://gitlab.com/group/project.git" _
                     "master" "feature" [] eq_refl eq_refl) eq_refl _).
    discriminate.
  - refine (f_equal fst
              (proj1 (proj2 (proj2 (unsupported_remote
                 (Sample.world None (Sample.git ""))
                 "ftp://myorg.visualstudio.com/spk-test-project/_git/new-repo"
                 _ "master" "feature" [] eq_refl eq_refl) eq_refl _ _)))).
    + discriminate.
    + discriminate.
Defined.

(** C2 as worded fails in three places.  On a gitlab.com remote
    [getPullRequestLink] returns instead of failing; on a visualstudio.com
    remote with protocol ftp [getRepositoryName] returns instead of throwing;
    and a visualstudio.com remote with protocol HTTPS, which is neither ssh
    nor https, is accepted by [getRepositoryUrl]. *)
Lemma unsupported_remote_as_worded_fails :
  (exists originUrl u,
     GitUrlParse (Sample.world None (Sample.git "")) originUrl = Return u
     /\ includes (resource u) "dev.azure.com" = false
     /\ includes (resource u) "visualstudio.com" = false
     /\ resource u <> "github.com"
     /\ getPullRequestLink "master" "feature" originUrl
          (Sample.world None (Sample.git "")) [] =
        (Return unsupportedProviderHelp,
         [Log error (Text "Could not determine origin repository, or it is not a supported type.")]))
  /\ (exists originUrl u,
        GitUrlParse (Sample.world None (Sample.git "")) originUrl = Return u
        /\ includes (resource u) "visualstudio.com" = true
        /\ protocol u <> "ssh" /\ protocol u <> "https"
        /\ fst (getRepositoryName originUrl
                  (Sample.world None (Sample.git "")) []) = Return "new-repo")
  /\ (exists originUrl u,
        GitUrlParse (Sample.world None (Sample.git "")) originUrl = Return u
        /\ includes (resource u) "visualstudio.com" = true
        /\ protocol u <> "ssh" /\ protocol u <> "https"
        /\ fst (getRepositoryUrl originUrl
                  (Sample.world None (Sample.git "")) []) =
           Return "https://myorg.visualstudio.com/spk-test-project/_git/new-repo").
Proof.
  split; [|split].
  - exists "https://gitlab.com/group/project.git". eexists.
    split; [reflexivity|]. repeat split; try reflexivity. discriminate.
  - exists "ftp://myorg.visualstudio.com/spk-test-project/_git/new-repo".
    eexists. split; [reflexivity|].
    repeat split; try reflexivity; discriminate.
  - exists "HTTPS://myorg.visualstudio.com/spk-test-project/_git/new-repo".
    eexists. split; [reflexivity|].
    repeat split; try reflexivity; discriminate.
Qed.

(** ** The git operations, one command at a time *)

Lemma getCurrentBranch_run env tr repoDir :
  let c := mkCommand "git" ["branch"; "--show-current"]
             (Some (path_resolve env
                      match repoDir with
                      | Some d => d
                      | None => process_cwd env
                      end)) in
  getCurrentBranch repoDir env tr =
  match shell env tr c with
  | Return branch => (Return branch, tr ++ [Exec c (Return branch)])
  | Throw e =>
      (Throw (Error "Unable to parse current branch from git client. Ensure 'git branch --show-current' returns a proper response"),
       (tr ++ [Exec c (Throw e)]) ++ [Log error (Obj e)])
  end.
Proof.
  intros c. unfold getCurrentBranch, exec. step_monad. fold c.
  destruct (shell env tr c); reflexivity.
Qed.

Lemma checkoutBranch_run env tr branchName (createNewBranch : bool) :
  let c := if createNewBranch then createBranch branchName
           else checkout branchName in
  checkoutBranch branchName createNewBranch env tr =
  (match shell env tr c with
   | Return _ => (Return tt : Outcome Exn unit)
   | Throw e =>
       Throw (Error ("Unable to checkout git branch " ++ branchName ++ ": "
                     ++ render e)%string)
   end, tr ++ [Exec c (shell env tr c)]).
Proof.
  intros c. unfold checkoutBranch, exec. step_monad.
  destruct createNewBranch; subst c; unfold createBranch, checkout;
    match goal with |- context [shell env tr ?k] =>
      destruct (shell env tr k) end; reflexivity.
Qed.

Lemma deleteBranch_run env tr branchName :
  deleteBranch branchName env tr =
  (match shell env tr (deleteLocal branchName) with
   | Return _ => (Return tt : Outcome Exn unit)
   | Throw e =>
       Throw (Error ("Unable to delete git branch " ++ branchName ++ ": "
                     ++ render e)%string)
   end,
   tr ++ [Exec (deleteLocal branchName)
            (shell env tr (deleteLocal branchName))]).
Proof.
  unfold deleteBranch, exec, deleteLocal. step_monad.
  match goal with |- context [shell env tr ?k] =>
    destruct (shell env tr k) end; reflexivity.
Qed.

Lemma pushBranch_run env tr branchName :
  pushBranch branchName env tr =
  (match shell env tr (push branchName) with
   | Return _ => (Return tt : Outcome Exn unit)
   | Throw e =>
       Throw (Error ("Unable to push git branch " ++ branchName ++ ": "
                     ++ render e)%string)
   end,
   tr ++ [Exec (push branchName) (shell env tr (push branchName))]).
Proof.
  unfold pushBranch, exec, push. step_monad.
  match goal with |- context [shell env tr ?k] =>
    destruct (shell env tr k) end; reflexivity.
Qed.

Lemma commitPath_run env tr branchName pathspecs :
  let failure e :=
    Error ("Unable to commit changes in " ++ join "," pathspecs
           ++ " to git branch " ++ branchName ++ ": " ++ render e)%string in
  commitPath branchName pathspecs env tr =
  match shell env tr (addPaths pathspecs) with
  | Throw e =>
      (Throw (failure e), tr ++ [Exec (addPaths pathspecs) (Throw e)])
  | Return out =>
      let tr1 := tr ++ [Exec (addPaths pathspecs) (Return out)] in
      (match shell env tr1 (commit branchName) with
       | Return _ => (Return tt : Outcome Exn unit)
       | Throw e => Throw (failure e)
       end,
       tr1 ++ [Exec (commit branchName) (shell env tr1 (commit branchName))])
  end.
Proof.
  intros failure. unfold commitPath, exec, addPaths, commit. step_monad.
  match goal with |- context [shell env tr ?k] =>
    destruct (shell env tr k) as [e | out] end; [reflexivity|].
  match goal with |- context [shell env ?t ?k] =>
    destruct (shell env t k) end; reflexivity.
Qed.

Lemma safeGitUrlForLogging_run env tr repoUrl :
  safeGitUrlForLogging repoUrl env tr =
  (match GitUrlParse env repoUrl with
   | Return u => Return (loggedForm u repoUrl)
   | Throw e => Throw e
   end, tr).
Proof.
  unfold safeGitUrlForLogging, loggedForm. step_monad.
  destruct (GitUrlParse env repoUrl) as [e | u]; [reflexivity|].
  destruct (negb (user u =? "")%string || negb (token u =? "")%string);
    reflexivity.
Qed.

Lemma getOriginUrl_run env tr absRepositoryPath :
  let c := originQuery match absRepositoryPath with
                       | Some d => d
                       | None => "."
                       end in
  getOriginUrl absRepositoryPath env tr =
  match shell env tr c with
  | Throw e =>
      (Throw (Error ("Unable to get git origin URL: " ++ render e)%string),
       tr ++ [Exec c (Throw e)])
  | Return originUrl =>
      match GitUrlParse env originUrl with
      | Throw e =>
          (Throw (Error ("Unable to get git origin URL: " ++ render e)%string),
           tr ++ [Exec c (Return originUrl)])
      | Return u =>
          (Return originUrl,
           (tr ++ [Exec c (Return originUrl)])
           ++ [Log debug (Text ("Got git origin url "
                                ++ loggedForm u originUrl)%string)])
      end
  end.
Proof.
  intros c. unfold getOriginUrl, exec. fold (originQuery
    match absRepositoryPath with Some d => d | None => "." end). fold c.
  unfold bind at 1. unfold try_catch.
  unfold bind at 1.
  destruct (shell env tr c) as [e | originUrl]; [reflexivity|].
  unfold bind. rewrite safeGitUrlForLogging_run.
  destruct (GitUrlParse env originUrl); reflexivity.
Qed.

Lemma getAzdoOriginUrl_run env tr :
  getAzdoOriginUrl env tr =
  match APP_REPO_URL env with
  | None =>
      (Throw (Error "Unable to get azdo origin URL: Error: Not running in a pipeline - no AzDO variables."),
       tr)
  | Some originUrl =>
      if (originUrl =? "")%string then
        (Throw (Error "Unable to get azdo origin URL: Error: Not running in a pipeline - no AzDO variables."),
         tr)
      else
        match GitUrlParse env originUrl with
        | Throw e =>
            (Throw (Error ("Unable to get azdo origin URL: "
                           ++ render e)%string), tr)
        | Return u =>
            (Return originUrl,
             tr ++ [Log debug (Text ("Got azdo git origin url "
                                     ++ loggedForm u originUrl)%string)])
        end
  end.
Proof.
  unfold getAzdoOriginUrl, falsy. unfold try_catch, bind at 1, ask.
  destruct (APP_REPO_URL env) as [originUrl|]; [|reflexivity].
  destruct (originUrl =? "")%string; [reflexivity|].
  cbv zeta. unfold bind. rewrite safeGitUrlForLogging_run.
  destruct (GitUrlParse env originUrl); reflexivity.
Qed.

(** ** Substrings of concatenations *)

Lemma startsWith_append s t p :
  startsWith s p = true -> startsWith (s ++ t) p = true.
Proof.
  revert s. induction p as [|a p IH]; intros s H; [reflexivity|].
  destruct s as [|b s]; [discriminate H|].
  simpl in *. apply andb_true_iff in H. destruct H as [Hab Hs].
  rewrite Hab, (IH _ Hs). reflexivity.
Qed.

Lemma includes_cons c s sub :
  includes s sub = true -> includes (String c s) sub = true.
Proof. intros H. simpl. rewrite H. apply orb_true_r. Qed.

Lemma includes_append_r s t sub :
  includes t sub = true -> includes (s ++ t) sub = true.
Proof.
  intros H. induction s as [|c s IH]; [exact H|].
  simpl. rewrite IH. apply orb_true_r.
Qed.

Lemma includes_append_l s t sub :
  includes s sub = true -> includes (s ++ t) sub = true.
Proof.
  induction s as [|c s IH]; intros H.
  - simpl in H. rewrite orb_false_r in H.
    destruct sub; [|discriminate H]. destruct t; reflexivity.
  - simpl in H. apply orb_true_iff in H. destruct H as [H | H].
    + pose proof (startsWith_append (String c s) t sub H) as Hs.
      change (String c s ++ t)%string with (String c (s ++ t)) in *.
      unfold includes; fold includes. rewrite Hs. reflexivity.
    + apply includes_cons. exact (IH H).
Qed.

Ltac says_manually :=
  unfold mentionsManualRemediation;
  repeat first
    [ reflexivity
    | apply includes_append_l; reflexivity
    | apply includes_cons
    | apply includes_append_r ].

(** ** The workflow, case by case *)

Ltac next_command :=
  match goal with
  | |- context [shell ?env ?t ?c] =>
      let r := fresh "r" in
      let Hr := fresh "Hr" in
      destruct (shell env t c) as [r | r] eqn:Hr
  end.

Ltac failed_run :=
  unfold WorkflowFacts, startingBranch; cbn [fst snd app];
  repeat match goal with H : shell _ _ _ = _ |- _ => rewrite ?H; clear H end;
  split; [unshelve (do 2 eexists; reflexivity); exact EmptyString|];
  split; [reflexivity|];
  split; [intros _; discriminate|];
  split; [intros Habs; discriminate Habs|];
  split;
    [ intros f Hf; injection Hf as <-; eexists; split; [reflexivity|];
      first [ solve [left; says_manually] | right; eexists; reflexivity ]
    | intros f _ Hnone; first [ discriminate Hnone | reflexivity ] ].

Ltac whole_run Hparse :=
  unfold WorkflowFacts, startingBranch; cbn [fst snd app];
  repeat match goal with H : shell _ _ _ = _ |- _ => rewrite ?H; clear H end;
  split; [do 2 eexists; reflexivity|];
  split; [reflexivity|];
  split; [intros Habs; discriminate Habs|];
  split; [|split; intros f Hf; discriminate Hf];
  intros _; do 2 eexists;
  split; [reflexivity|];
  split; [repeat first [left; reflexivity | right]|];
  rewrite (getPullRequestLink_parsed _ _ _ _ _ _ Hparse);
  repeat match goal with H : _ = true |- _ => rewrite ?H; clear H
                    | H : _ = false |- _ => rewrite ?H; clear H end;
  reflexivity.

Ltac cleanup_steps Hparse :=
  cbv beta iota;
  rewrite checkoutBranch_run; cbv beta iota zeta;
  next_command; cbv beta iota; [failed_run|];
  rewrite deleteBranch_run; cbv beta iota zeta;
  next_command; cbv beta iota; [failed_run|];
  whole_run Hparse.

Lemma workflow_cases env newBranchName pathspecs :
  WorkflowFacts env newBranchName pathspecs
    (checkoutCommitPushCreatePRLink newBranchName pathspecs env []).
Proof.
  unfold checkoutCommitPushCreatePRLink.
  cbv beta iota delta [bind try_catch ret throw logger].
  rewrite getCurrentBranch_run; cbv zeta. fold (showCurrent env).
  destruct (shell env [] (showCurrent env)) as [e1 | cur] eqn:H1;
    cbv beta iota.
  { failed_run. }
  rewrite checkoutBranch_run; cbv beta iota zeta.
  next_command; cbv beta iota; [failed_run|].
  rewrite commitPath_run; cbv beta iota zeta.
  next_command; cbv beta iota; [failed_run|].
  next_command; cbv beta iota; [failed_run|].
  rewrite pushBranch_run; cbv beta iota zeta.
  next_command; cbv beta iota; [failed_run|].
  rewrite getOriginUrl_run; cbv beta iota zeta.
  next_command; cbv beta iota; [failed_run|].
  destruct (GitUrlParse env r3) as [e | u] eqn:Hparse; cbv beta iota;
    [failed_run|].
  rewrite (getPullRequestLink_parsed _ _ _ _ _ _ Hparse).
  destruct (includes (resource u) "dev.azure.com") eqn:Hazure;
    [cleanup_steps Hparse|].
  destruct (includes (resource u) "visualstudio.com") eqn:Hvs.
  - destruct (toLowerCase (protocol u) =? "ssh")%string eqn:Hssh;
      [cleanup_steps Hparse|].
    destruct (toLowerCase (protocol u) =? "https")%string eqn:Hhttps;
      [cleanup_steps Hparse|].
    cbv beta iota. failed_run.
  - destruct (resource u =? "github.com")%string eqn:Hgh;
      cleanup_steps Hparse.
Qed.

(** C1, as the code has it.  Every run of [checkoutCommitPushCreatePRLink]
    takes its steps in this order: ask git for the current branch, create
    and check out the new branch, add and commit the pathspecs, push the
    branch, ask git for the origin URL, parse it and build the pull request
    link of its provider (announced at level info), check out the original
    branch, delete the new branch.  A run is an initial part of that
    sequence; it is the whole sequence when the workflow returns; once a
    command fails nothing more is run, nothing is rolled back, and the
    workflow throws a GIT_OPS_ERR error; and whenever it fails although none
    of its commands failed, it has run the first six commands, through the
    origin query, and no more. *)
Theorem workflow_order env newBranchName pathspecs :
  let run := checkoutCommitPushCreatePRLink newBranchName pathspecs env [] in
  (exists link rest,
     workflowSteps env (startingBranch env) newBranchName pathspecs link
     = steps (snd run) ++ rest)
  /\ (fst run = Return tt ->
      exists originUrl link,
        steps (snd run)
        = workflowSteps env (startingBranch env) newBranchName pathspecs link
        /\ In (Exec (originQuery ".") (Return originUrl)) (snd run)
        /\ fst (getPullRequestLink (startingBranch env) newBranchName
                  originUrl env []) = Return link)
  /\ stopsAtFailure (snd run) = true
  /\ (existsb failed (snd run) = true ->
      exists cause,
        fst run = Throw (buildError GIT_OPS_ERR workflowKey (Some cause)))
  /\ (fst run <> Return tt -> existsb failed (snd run) = false ->
      commands (snd run)
      = [ showCurrent env; createBranch newBranchName; addPaths pathspecs;
          commit newBranchName; push newBranchName; originQuery "." ]).
Proof.
  intros run.
  destruct (workflow_cases env newBranchName pathspecs)
    as (Hprefix & Hstop & Hfail & Hwhole & Hthrown & Hlink).
  fold run in Hprefix, Hstop, Hfail, Hwhole, Hthrown, Hlink.
  repeat match goal with |- _ /\ _ => split end; try assumption.
  - intros Hfailed. specialize (Hfail Hfailed).
    destruct (fst run) as [f | []] eqn:Hrun.
    + destruct (Hthrown f eq_refl) as (m & -> & _). eexists. reflexivity.
    + contradiction Hfail. reflexivity.
  - intros Hnot Hnone. destruct (fst run) as [f | []] eqn:Hrun.
    + exact (Hlink f eq_refl Hnone).
    + contradiction Hnot. reflexivity.
Qed.

Lemma workflow_order_sample :
  let good := Sample.world None
                (Sample.git "https://github.com/CatalystCode/spk.git") in
  let bad := Sample.world None
               (Sample.gitFailing "commit" "nothing to commit"
                  "https://github.com/CatalystCode/spk.git") in
  (exists originUrl link,
     steps (snd (checkoutCommitPushCreatePRLink "feature" ["a.yaml"] good []))
     = workflowSteps good "master" "feature" ["a.yaml"] link
     /\ In (Exec (originQuery ".") (Return originUrl))
          (snd (checkoutCommitPushCreatePRLink "feature" ["a.yaml"] good []))
     /\ fst (getPullRequestLink "master" "feature" originUrl good [])
        = Return link)
  /\ (exists cause,
        fst (checkoutCommitPushCreatePRLink "feature" ["a.yaml"] bad [])
        = Throw (buildError GIT_OPS_ERR workflowKey (Some cause))).
Proof.
  split.
  - exact (proj1 (proj2 (workflow_order
                           (Sample.world None
                              (Sample.git "https://github.com/CatalystCode/spk.git"))
                           "feature" ["a.yaml"])) eq_refl).
  - exact (proj1 (proj2 (proj2 (proj2 (workflow_order
                           (Sample.world None
                              (Sample.gitFailing "commit" "nothing to commit"
                                 "https://github.com/CatalystCode/spk.git"))
                           "feature" ["a.yaml"])))) eq_refl).
Defined.

(** C1 as worded puts the origin URL first.  In a run in which every command
    succeeds, the origin URL is asked for after the push, not before the
    branch is created; and in a run whose push is rejected nothing is logged
    and nothing is rolled back: the rejected push is the last event. *)
Lemma workflow_order_as_worded_fails :
  let good := Sample.world None
                (Sample.git "https://github.com/CatalystCode/spk.git") in
  let bad := Sample.world None
               (Sample.gitFailing "push" "rejected"
                  "https://github.com/CatalystCode/spk.git") in
  let run := checkoutCommitPushCreatePRLink "feature" ["a.yaml"] good [] in
  let stopped := checkoutCommitPushCreatePRLink "feature" ["a.yaml"] bad [] in
  (fst run = Return tt
   /\ precedes (originQuery ".") (createBranch "feature")
        (commands (snd run)) = false
   /\ precedes (push "feature") (originQuery ".") (commands (snd run)) = true)
  /\ (snd stopped =
      [ Exec (showCurrent bad) (Return "master");
        Exec (createBranch "feature") (Return "");
        Exec (addPaths ["a.yaml"]) (Return "");
        Exec (commit "feature") (Return "");
        Exec (push "feature") (Throw (Foreign "rejected")) ]
      /\ existsb isLog (snd stopped) = false).
Proof. repeat split. Qed.




(** The one step of the workflow whose failure is passed on as it is: when
    the origin query fails, the cause carries the message of [getOriginUrl]
    and no more. *)
Lemma workflow_origin_failure :
  fst (checkoutCommitPushCreatePRLink "feature" ["a.yaml"]
         (Sample.world None (Sample.gitFailing "config" "fatal: no remote" ""))
         []) =
  Throw (buildError GIT_OPS_ERR workflowKey
           (Some (Error "Unable to get git origin URL: fatal: no remote"))).
Proof. reflexivity. Qed.

(** ** What is logged, and where the origin comes from *)

Lemma loggedForm_scrubbed u repoUrl :
  user u <> "" \/ token u <> "" ->
  loggedForm u repoUrl = (protocol u ++ "://" ++ resource u ++ pathname u)%string.
Proof.
  intros Hcred. unfold loggedForm.
  destruct Hcred as [H | H]; apply String.eqb_neq in H; rewrite H;
    [reflexivity | rewrite orb_true_r; reflexivity].
Qed.

Lemma getRepositoryName_logs env originUrl tr :
  exists logs,
    snd (getRepositoryName originUrl env tr) = tr ++ logs
    /\ incl logs resolverLines.
Proof.
  destruct (GitUrlParse env originUrl) as [e | u] eqn:Hp.
  - exists []. unfold getRepositoryName. step_monad. rewrite Hp.
    split; [symmetry; apply app_nil_r | apply incl_nil_l].
  - rewrite (getRepositoryName_parsed _ _ _ _ Hp).
    repeat match goal with
           | |- context [if ?b then _ else _] => destruct b
           end;
      first [ exists []; split; [symmetry; apply app_nil_r | apply incl_nil_l]
            | eexists; split; [reflexivity|];
              intros ev [<- | []]; simpl; tauto ].
Qed.

Lemma getRepositoryUrl_logs env originUrl tr :
  exists logs,
    snd (getRepositoryUrl originUrl env tr) = tr ++ logs
    /\ incl logs resolverLines.
Proof.
  destruct (GitUrlParse env originUrl) as [e | u] eqn:Hp.
  - exists []. unfold getRepositoryUrl. step_monad. rewrite Hp.
    split; [symmetry; apply app_nil_r | apply incl_nil_l].
  - rewrite (getRepositoryUrl_parsed _ _ _ _ Hp).
    repeat match goal with
           | |- context [if ?b then (_, _) else _] => destruct b
           end;
      first [ exists []; split; [symmetry; apply app_nil_r | apply incl_nil_l]
            | eexists; split; [reflexivity|];
              intros ev [<- | []]; simpl; tauto ].
Qed.

Lemma getPullRequestLink_logs env baseBranch newBranch originUrl tr :
  exists logs,
    snd (getPullRequestLink baseBranch newBranch originUrl env tr) = tr ++ logs
    /\ incl logs resolverLines.
Proof.
  destruct (GitUrlParse env originUrl) as [e | u] eqn:Hp.
  - exists []. rewrite (getPullRequestLink_unparsed _ _ _ _ _ _ Hp).
    split; [symmetry; apply app_nil_r | apply incl_nil_l].
  - rewrite (getPullRequestLink_parsed _ _ _ _ _ _ Hp).
    repeat match goal with
           | |- context [if ?b then (_, _) else _] => destruct b
           end;
      eexists; (split; [reflexivity|]);
      intros ev [<- | []]; simpl; tauto.
Qed.

(** C7.  For an origin URL that parses with a non-empty user or token,
    [safeGitUrlForLogging] returns protocol://resource followed by the
    pathname, and nothing of the user or the token; that string is the one
    [getOriginUrl] and [getAzdoOriginUrl] log, while they return the URL
    itself.  The resolver operations run no command: all they add to the
    trace are lines from a fixed list, in which no URL appears. *)
Theorem logged_origin_is_scrubbed env originUrl u :
  GitUrlParse env originUrl = Return u ->
  user u <> "" \/ token u <> "" ->
  let safe := (protocol u ++ "://" ++ resource u ++ pathname u)%string in
  (forall tr, safeGitUrlForLogging originUrl env tr = (Return safe, tr))
  /\ (forall tr absRepositoryPath,
        let c := originQuery match absRepositoryPath with
                             | Some d => d
                             | None => "."
                             end in
        shell env tr c = Return originUrl ->
        getOriginUrl absRepositoryPath env tr =
        (Return originUrl,
         tr ++ [Exec c (Return originUrl);
                Log debug (Text ("Got git origin url " ++ safe)%string)]))
  /\ (forall tr,
        APP_REPO_URL env = Some originUrl -> originUrl <> "" ->
        getAzdoOriginUrl env tr =
        (Return originUrl,
         tr ++ [Log debug (Text ("Got azdo git origin url " ++ safe)%string)]))
  /\ (forall tr url baseBranch newBranch,
        (exists logs, snd (getRepositoryName url env tr) = tr ++ logs
                      /\ incl logs resolverLines)
        /\ (exists logs, snd (getRepositoryUrl url env tr) = tr ++ logs
                         /\ incl logs resolverLines)
        /\ (exists logs,
              snd (getPullRequestLink baseBranch newBranch url env tr)
              = tr ++ logs
              /\ incl logs resolverLines)).
Proof.
  intros Hp Hcred safe.
  pose proof (loggedForm_scrubbed u originUrl Hcred) as Hsafe. fold safe in Hsafe.
  repeat match goal with |- _ /\ _ => split end.
  - intros tr. rewrite safeGitUrlForLogging_run, Hp, Hsafe. reflexivity.
  - intros tr absRepositoryPath c Hc. rewrite getOriginUrl_run. fold c.
    rewrite Hc, Hp, Hsafe, <- app_assoc. reflexivity.
  - intros tr Henv Hne. rewrite getAzdoOriginUrl_run, Henv.
    apply String.eqb_neq in Hne. rewrite Hne, Hp, Hsafe. reflexivity.
  - intros tr url baseBranch newBranch.
    split; [apply getRepositoryName_logs|].
    split; [apply getRepositoryUrl_logs | apply getPullRequestLink_logs].
Qed.

Lemma logged_origin_is_scrubbed_sample :
  let remote :=
    "https://user@dev.azure.com/myorg/spk-test-project/_git/new-repo" in
  let env := Sample.world (Some remote) (Sample.git remote) in
  getOriginUrl None env [] =
    (Return remote,
     [Exec (originQuery ".") (Return remote);
      Log debug (Text "Got git origin url https://dev.azure.com/myorg/spk-test-project/_git/new-repo")])
  /\ getAzdoOriginUrl env [] =
    (Return remote,
     [Log debug (Text "Got azdo git origin url https://dev.azure.com/myorg/spk-test-project/_git/new-repo")]).
Proof.
  pose (remote :=
    "https://user@dev.azure.com/myorg/spk-test-project/_git/new-repo").
  pose (env := Sample.world (Some remote) (Sample.git remote)).
  assert (Hcred : user (mkGitUrl "https" "dev.azure.com" "user"
                          "/myorg/spk-test-project/_git/new-repo" ""
                          "myorg" "spk-test-project" "new-repo") <> ""
                  \/ token (mkGitUrl "https" "dev.azure.com" "user"
                              "/myorg/spk-test-project/_git/new-repo" ""
                              "myorg" "spk-test-project" "new-repo") <> "")
    by (left; discriminate).
  pose proof (logged_origin_is_scrubbed env remote _ eq_refl Hcred) as H.
  cbv zeta in H. destruct H as (_ & Hgit & Hazdo & _).
  split.
  - exact (Hgit [] None eq_refl).
  - refine (Hazdo [] eq_refl _). discriminate.
Defined.

Lemma tryGetGitOrigin_run env tr absRepoPath :
  tryGetGitOrigin absRepoPath env tr =
  match getAzdoOriginUrl env tr with
  | (Return originUrl, tr') => (Return originUrl, tr')
  | (Throw _, tr') =>
      getOriginUrl absRepoPath env
        (tr' ++ [Log warn (Text "Could not get Git Origin for Azure DevOps - are you running 'spk' _not_ in a pipeline?")])
  end.
Proof.
  unfold tryGetGitOrigin, try_catch, bind, logger.
  destruct (getAzdoOriginUrl env tr) as [[e | originUrl] tr']; reflexivity.
Qed.

(** C8, as the code has it.  When APP_REPO_URL is set, non-empty and accepted
    by the URL parser, [tryGetGitOrigin] returns its value and runs no
    command.  When it is unset or empty, or the parser rejects its value,
    [tryGetGitOrigin] logs a warning and answers as [getOriginUrl] does in
    the given repository path, that is from git config --get
    remote.origin.url. *)
Theorem tryGetGitOrigin_source env absRepoPath tr :
  (forall originUrl u,
     APP_REPO_URL env = Some originUrl -> originUrl <> "" ->
     GitUrlParse env originUrl = Return u ->
     tryGetGitOrigin absRepoPath env tr =
     (Return originUrl,
      tr ++ [Log debug (Text ("Got azdo git origin url "
                              ++ loggedForm u originUrl)%string)]))
  /\ (falsy (APP_REPO_URL env) = true
      \/ (exists originUrl e, APP_REPO_URL env = Some originUrl
                              /\ GitUrlParse env originUrl = Throw e) ->
      tryGetGitOrigin absRepoPath env tr =
      getOriginUrl absRepoPath env
        (tr ++ [Log warn (Text "Could not get Git Origin for Azure DevOps - are you running 'spk' _not_ in a pipeline?")])
      /\ commands (snd (tryGetGitOrigin absRepoPath env tr)) =
         commands tr ++ [originQuery match absRepoPath with
                                     | Some d => d
                                     | None => "."
                                     end]).
Proof.
  rewrite tryGetGitOrigin_run, getAzdoOriginUrl_run.
  split.
  - intros originUrl u Henv Hne Hp. rewrite Henv.
    apply String.eqb_neq in Hne. rewrite Hne, Hp. reflexivity.
  - intros Hfallback.
    match goal with |- ?run = ?fallback /\ _ =>
      assert (Hrun : run = fallback) end.
    { destruct Hfallback as [Hfalsy | (originUrl & e & Henv & Hp)].
      - unfold falsy in Hfalsy.
        destruct (APP_REPO_URL env) as [originUrl|]; [|reflexivity].
        rewrite Hfalsy. reflexivity.
      - rewrite Henv, Hp.
        destruct (originUrl =? "")%string; reflexivity. }
    rewrite Hrun. split; [reflexivity|].
    rewrite getOriginUrl_run. cbv zeta.
    match goal with |- context [shell env ?t ?c] =>
      destruct (shell env t c) as [e | originUrl] end.
    + cbn [snd]. unfold commands. rewrite !flat_map_app. cbn.
      rewrite app_nil_r. reflexivity.
    + destruct (GitUrlParse env originUrl); cbn [snd]; unfold commands;
        rewrite !flat_map_app; cbn; rewrite ?app_nil_r; reflexivity.
Qed.

Lemma tryGetGitOrigin_source_sample :
  tryGetGitOrigin None
    (Sample.world (Some "git@github.com:CatalystCode/spk.git")
       (Sample.git "https://github.com/CatalystCode/spk.git")) [] =
  (Return "git@github.com:CatalystCode/spk.git",
   [Log debug (Text "Got azdo git origin url ssh://github.com/CatalystCode/spk.git")])
  /\ tryGetGitOrigin None
       (Sample.world None
          (Sample.git "https://github.com/CatalystCode/spk.git")) [] =
     getOriginUrl None
       (Sample.world None
          (Sample.git "https://github.com/CatalystCode/spk.git"))
       [Log warn (Text "Could not get Git Origin for Azure DevOps - are you running 'spk' _not_ in a pipeline?")].
Proof.
  split.
  - refine (proj1 (tryGetGitOrigin_source
                     (Sample.world (Some "git@github.com:CatalystCode/spk.git")
                        (Sample.git "https://github.com/CatalystCode/spk.git"))
                     None [])
              "git@github.com:CatalystCode/spk.git" _ eq_refl _ eq_refl).
    discriminate.
  - exact (proj1 (proj2 (tryGetGitOrigin_source
                     (Sample.world None
                        (Sample.git "https://github.com/CatalystCode/spk.git"))
                     None []) (or_introl eq_refl))).
Defined.

(** C8 as worded fails when the URL parser rejects the value of
    APP_REPO_URL, as it does a blank one: the variable is set and is not
    the empty string, and yet the origin is read from git. *)
Lemma tryGetGitOrigin_blank_override :
  let env := Sample.world (Some " ")
               (Sample.git "https://github.com/CatalystCode/spk.git") in
  APP_REPO_URL env = Some " "
  /\ falsy (APP_REPO_URL env) = false
  /\ fst (tryGetGitOrigin None env []) =
     Return "https://github.com/CatalystCode/spk.git"
  /\ commands (snd (tryGetGitOrigin None env [])) = [originQuery "."].
Proof. repeat split. Qed.

(** ** Further properties of the resolver *)

Lemma append_assoc (a b c : string) :
  ((a ++ b) ++ c = a ++ (b ++ c))%string.
Proof. induction a as [|x a IH]; [reflexivity|]. simpl. rewrite IH. reflexivity. Qed.

Lemma Return_inj {E A : Type} (a b : A) :
  @Return E A a = Return b -> a = b.
Proof. intros H. injection H as H. exact H. Qed.

Lemma ends_refl (z : string) : exists pre, z = (pre ++ z)%string.
Proof. exists EmptyString. reflexivity. Qed.

Lemma ends_cons c (t z : string) :
  (exists pre, t = (pre ++ z)%string) ->
  exists pre, String c t = (pre ++ z)%string.
Proof. intros [pre ->]. exists (String c pre). reflexivity. Qed.

Lemma ends_append (s t z : string) :
  (exists pre, t = (pre ++ z)%string) ->
  exists pre, (s ++ t)%string = (pre ++ z)%string.
Proof.
  intros [pre ->]. exists (s ++ pre)%string. symmetry. apply append_assoc.
Qed.

Ltac ends_with :=
  repeat first [ apply ends_refl | apply ends_cons | apply ends_append ].

Lemma startsWith_refl s : startsWith s s = true.
Proof.
  induction s as [|c s IH]; [reflexivity|].
  simpl. rewrite Ascii.eqb_refl, IH. reflexivity.
Qed.

Lemma includes_refl s : includes s s = true.
Proof. destruct s; simpl; [reflexivity|]. rewrite Ascii.eqb_refl, startsWith_refl. reflexivity. Qed.

(** X1.  With a non-empty [repoUrl] option, [validateRepoUrl] returns that
    option as it is: the origin URL is not parsed, nothing is logged, and
    nothing is thrown, whatever the origin.  Without one (not given, or
    empty) it is [getRepositoryUrl] on the origin. *)
Theorem validateRepoUrl_prefers_option env opts gitOriginUrl tr :
  (forall value,
     repoUrl opts = Some value -> value <> "" ->
     validateRepoUrl opts gitOriginUrl env tr = (Return value, tr))
  /\ (falsy (repoUrl opts) = true ->
      validateRepoUrl opts gitOriginUrl env tr =
      getRepositoryUrl gitOriginUrl env tr).
Proof.
  unfold validateRepoUrl. split.
  - intros value Hopt Hne. rewrite Hopt. unfold falsy.
    apply String.eqb_neq in Hne. rewrite Hne. reflexivity.
  - intros Hfalsy. rewrite Hfalsy. reflexivity.
Qed.

Lemma validateRepoUrl_prefers_option_sample :
  validateRepoUrl (mkCommandOptions (Some "https://example.org/any/repo"))
    "https://gitlab.com/group/project.git"
    (Sample.world None (Sample.git "")) [] =
  (Return "https://example.org/any/repo", [])
  /\ validateRepoUrl (mkCommandOptions (Some ""))
       "git@github.com:CatalystCode/spk.git"
       (Sample.world None (Sample.git "")) [] =
     getRepositoryUrl "git@github.com:CatalystCode/spk.git"
       (Sample.world None (Sample.git "")) [].
Proof.
  split.
  - refine (proj1 (validateRepoUrl_prefers_option
                     (Sample.world None (Sample.git ""))
                     (mkCommandOptions (Some "https://example.org/any/repo"))
                     "https://gitlab.com/group/project.git" [])
              _ eq_refl _).
    discriminate.
  - exact (proj2 (validateRepoUrl_prefers_option
                    (Sample.world None (Sample.git ""))
                    (mkCommandOptions (Some ""))
                    "git@github.com:CatalystCode/spk.git" []) eq_refl).
Defined.

(** X2.  When the URL parser throws on the origin, [safeGitUrlForLogging],
    [getRepositoryUrl] and [getRepositoryName] let that very exception
    through, [getPullRequestLink] replaces it by its own Error, and
    [getOriginUrl] fails although git answered: the answer cannot be
    prepared for the log.  None of them logs anything. *)
Theorem unparseable_origin env originUrl e tr :
  GitUrlParse env originUrl = Throw e ->
  safeGitUrlForLogging originUrl env tr = (Throw e, tr)
  /\ getRepositoryUrl originUrl env tr = (Throw e, tr)
  /\ getRepositoryName originUrl env tr = (Throw (Raised e), tr)
  /\ (forall baseBranch newBranch,
        getPullRequestLink baseBranch newBranch originUrl env tr =
        (Throw (undeterminedProvider e), tr))
  /\ (forall absRepositoryPath,
        let c := originQuery match absRepositoryPath with
                             | Some d => d
                             | None => "."
                             end in
        shell env tr c = Return originUrl ->
        getOriginUrl absRepositoryPath env tr =
        (Throw (Error ("Unable to get git origin URL: " ++ render e)%string),
         tr ++ [Exec c (Return originUrl)])).
Proof.
  intros Hp. repeat match goal with |- _ /\ _ => split end.
  - rewrite safeGitUrlForLogging_run, Hp. reflexivity.
  - unfold getRepositoryUrl. step_monad. rewrite Hp. reflexivity.
  - unfold getRepositoryName. step_monad. rewrite Hp. reflexivity.
  - intros baseBranch newBranch. apply getPullRequestLink_unparsed, Hp.
  - intros absRepositoryPath c Hc. rewrite getOriginUrl_run. fold c.
    rewrite Hc, Hp. reflexivity.
Qed.

Lemma unparseable_origin_sample :
  getRepositoryUrl " " (Sample.world None (Sample.git " ")) [] =
    (Throw (Foreign "Error: Invalid url."), [])
  /\ getOriginUrl None (Sample.world None (Sample.git " ")) [] =
    (Throw (Error "Unable to get git origin URL: Error: Invalid url."),
     [Exec (originQuery ".") (Return " ")]).
Proof.
  destruct (unparseable_origin (Sample.world None (Sample.git " ")) " "
              (Foreign "Error: Invalid url.") [] eq_refl)
    as (_ & Hurl & _ & _ & Horigin).
  split; [exact Hurl | exact (Horigin None eq_refl)].
Defined.

(** X3.  A pull request link is the repository URL with a tail: whenever
    [getRepositoryUrl] returns a URL for an origin, [getPullRequestLink]
    returns for the same origin, and what it returns is that URL followed by
    /pullrequestcreate?sourceRef={new}&targetRef={base} on Azure DevOps and
    Visual Studio Online, and by /compare/{base}...{new}?expand=1 on
    GitHub. *)
Theorem pull_request_link_extends_repository_url
    env originUrl u url baseBranch newBranch tr tr' :
  GitUrlParse env originUrl = Return u ->
  fst (getRepositoryUrl originUrl env tr) = Return url ->
  fst (getPullRequestLink baseBranch newBranch originUrl env tr') =
  Return (url ++ if includes (resource u) "dev.azure.com"
                    || includes (resource u) "visualstudio.com"
                 then pullrequestcreate newBranch baseBranch
                 else compareSuffix baseBranch newBranch)%string.
Proof.
  intros Hp. rewrite (getRepositoryUrl_parsed _ _ _ _ Hp).
  rewrite (getPullRequestLink_parsed _ _ _ _ _ _ Hp).
  unfold compareSuffix.
  destruct (includes (resource u) "dev.azure.com").
  { intros H. apply Return_inj in H. subst url. cbn [fst orb].
    rewrite !append_assoc. reflexivity. }
  destruct (includes (resource u) "visualstudio.com").
  { cbn [fst orb].
    destruct (toLowerCase (protocol u) =? "ssh")%string.
    { intros H. apply Return_inj in H. subst url.
      rewrite !append_assoc. reflexivity. }
    destruct (toLowerCase (protocol u) =? "https")%string.
    { intros H. apply Return_inj in H. subst url.
      rewrite !append_assoc. reflexivity. }
    intros Habs. discriminate Habs. }
  destruct (resource u =? "github.com")%string.
  { intros H. apply Return_inj in H. subst url. cbn [fst orb].
    rewrite !append_assoc. reflexivity. }
  intros Habs. discriminate Habs.
Qed.

Lemma pull_request_link_extends_repository_url_sample :
  fst (getPullRequestLink "master" "feature"
         "git@github.com:CatalystCode/spk.git"
         (Sample.world None (Sample.git "")) []) =
  Return "https://github.com/CatalystCode/spk/compare/master...feature?expand=1".
Proof.
  exact (pull_request_link_extends_repository_url
           (Sample.world None (Sample.git ""))
           "git@github.com:CatalystCode/spk.git" _
           "https://github.com/CatalystCode/spk" "master" "feature" [] []
           eq_refl eq_refl).
Defined.

(** X4.  [getPullRequestLink] throws in two cases only: the URL parser
    throws on the origin, or the origin is a Visual Studio Online remote
    (not taken for Azure DevOps) whose protocol, lowercased, is neither ssh
    nor https.  What it throws is then an Error whose message starts with
    the quoted sentence of its catch clause. *)
Theorem getPullRequestLink_throws_only env baseBranch newBranch originUrl e tr :
  fst (getPullRequestLink baseBranch newBranch originUrl env tr) = Throw e ->
  (exists cause,
     e = undeterminedProvider cause
     /\ (GitUrlParse env originUrl = Throw cause
         \/ exists u,
              GitUrlParse env originUrl = Return u
              /\ includes (resource u) "dev.azure.com" = false
              /\ includes (resource u) "visualstudio.com" = true
              /\ toLowerCase (protocol u) <> "ssh"
              /\ toLowerCase (protocol u) <> "https"
              /\ cause = Error (invalidProtocol originUrl (protocol u)))).
Proof.
  destruct (GitUrlParse env originUrl) as [cause | u] eqn:Hp.
  - rewrite (getPullRequestLink_unparsed _ _ _ _ _ _ Hp).
    intros [= <-]. exists cause. split; [reflexivity | left; reflexivity].
  - rewrite (getPullRequestLink_parsed _ _ _ _ _ _ Hp).
    destruct (includes (resource u) "dev.azure.com") eqn:Hazure;
      [intros H; discriminate H|].
    destruct (includes (resource u) "visualstudio.com") eqn:Hvs.
    + destruct (toLowerCase (protocol u) =? "ssh")%string eqn:Hssh;
        [intros H; discriminate H|].
      destruct (toLowerCase (protocol u) =? "https")%string eqn:Hhttps;
        [intros H; discriminate H|].
      intros [= <-]. eexists. split; [reflexivity|]. right. exists u.
      apply String.eqb_neq in Hssh, Hhttps. repeat split; assumption.
    + destruct (resource u =? "github.com")%string; intros H; discriminate H.
Qed.

Lemma getPullRequestLink_throws_only_sample :
  exists cause,
    Error (dquote ++ "Could not determine git provider, or it is not a supported type."
           ++ dquote ++ ": Error: Invalid url.")%string
    = undeterminedProvider cause
    /\ (GitUrlParse (Sample.world None (Sample.git "")) " " = Throw cause
        \/ exists u,
             GitUrlParse (Sample.world None (Sample.git "")) " " = Return u
             /\ includes (resource u) "dev.azure.com" = false
             /\ includes (resource u) "visualstudio.com" = true
             /\ toLowerCase (protocol u) <> "ssh"
             /\ toLowerCase (protocol u) <> "https"
             /\ cause = Error (invalidProtocol " " (protocol u))).
Proof.
  exact (getPullRequestLink_throws_only
           (Sample.world None (Sample.git "")) "master" "feature" " " _ []
           eq_refl).
Defined.

(** X5.  Whenever [getRepositoryUrl] returns a URL for an origin,
    [getRepositoryName] returns for it too, and the URL ends with a slash
    followed by the name [getRepositoryName] returns. *)
Theorem repository_url_ends_with_name env originUrl url tr tr' :
  fst (getRepositoryUrl originUrl env tr) = Return url ->
  exists repoName,
    fst (getRepositoryName originUrl env tr') = Return repoName
    /\ exists pre, url = (pre ++ "/" ++ repoName)%string.
Proof.
  destruct (GitUrlParse env originUrl) as [e | u] eqn:Hp.
  { unfold getRepositoryUrl. step_monad. rewrite Hp.
    intros H; discriminate H. }
  rewrite (getRepositoryUrl_parsed _ _ _ _ Hp).
  rewrite (getRepositoryName_parsed _ _ _ _ Hp).
  destruct (includes (resource u) "dev.azure.com").
  { intros [= <-]. exists (name u). split; [reflexivity|]. cbn. ends_with. }
  destruct (includes (resource u) "visualstudio.com").
  { destruct (toLowerCase (protocol u) =? "ssh")%string.
    { intros [= <-]. exists (name u). split; [reflexivity|]. cbn. ends_with. }
    destruct (toLowerCase (protocol u) =? "https")%string.
    { intros [= <-]. exists (name u). split; [reflexivity|]. cbn. ends_with. }
    intros H; discriminate H. }
  destruct (resource u =? "github.com")%string.
  { intros [= <-]. exists (name u). split; [reflexivity|]. cbn. ends_with. }
  intros H; discriminate H.
Qed.

Lemma repository_url_ends_with_name_sample :
  exists repoName,
    fst (getRepositoryName
           "https://user@dev.azure.com/myorg/spk-test-project/_git/new-repo"
           (Sample.world None (Sample.git "")) []) = Return repoName
    /\ exists pre,
         "https://dev.azure.com/myorg/spk-test-project/_git/new-repo"
         = (pre ++ "/" ++ repoName)%string.
Proof.
  exact (repository_url_ends_with_name
           (Sample.world None (Sample.git ""))
           "https://user@dev.azure.com/myorg/spk-test-project/_git/new-repo"
           _ [] [] eq_refl).
Defined.

(** X6.  For an origin of no supported provider, the key of the
    VALIDATION_ERR error of [getRepositoryName] depends on how the parsed
    resource begins: git-err-validating-remote-git when it starts with
    http, git-err-invalid-repository-url otherwise.  Nothing is logged. *)
Theorem getRepositoryName_error_key env originUrl u tr :
  GitUrlParse env originUrl = Return u ->
  includes (resource u) "dev.azure.com" = false ->
  includes (resource u) "visualstudio.com" = false ->
  resource u <> "github.com" ->
  getRepositoryName originUrl env tr =
  (Throw (buildError VALIDATION_ERR
            (if startsWith (resource u) "http"
             then "git-err-validating-remote-git"
             else "git-err-invalid-repository-url") None),
   tr).
Proof.
  intros Hp Hazure Hvs Hgh. apply String.eqb_neq in Hgh.
  rewrite (getRepositoryName_parsed _ _ _ _ Hp), Hazure, Hvs, Hgh.
  destruct (startsWith (resource u) "http"); reflexivity.
Qed.

Lemma getRepositoryName_error_key_sample :
  getRepositoryName "https://gitlab.com/group/project.git"
    (Sample.world None (Sample.git "")) [] =
  (Throw (buildError VALIDATION_ERR "git-err-invalid-repository-url" None),
   []).
Proof.
  refine (getRepositoryName_error_key (Sample.world None (Sample.git ""))
            "https://gitlab.com/group/project.git" _ []
            eq_refl eq_refl eq_refl _).
  discriminate.
Defined.

(** X7.  What [getOriginUrl] returns is what git printed, unchanged, also
    when it carries credentials: whenever it returns a URL, that URL is the
    answer of git config --get remote.origin.url in the given directory, the
    URL parser accepts it, and the query and one debug line are all that
    happened. *)
Theorem getOriginUrl_returns_git_answer env absRepositoryPath tr originUrl :
  let c := originQuery match absRepositoryPath with
                       | Some d => d
                       | None => "."
                       end in
  fst (getOriginUrl absRepositoryPath env tr) = Return originUrl ->
  shell env tr c = Return originUrl
  /\ exists u,
       GitUrlParse env originUrl = Return u
       /\ snd (getOriginUrl absRepositoryPath env tr) =
          tr ++ [Exec c (Return originUrl);
                 Log debug (Text ("Got git origin url "
                                  ++ loggedForm u originUrl)%string)].
Proof.
  intros c. rewrite getOriginUrl_run. fold c.
  destruct (shell env tr c) as [e | answer]; [intros H; discriminate H|].
  destruct (GitUrlParse env answer) as [e | u] eqn:Hp;
    [intros H; discriminate H|].
  intros H. apply Return_inj in H. subst answer.
  split; [reflexivity|]. exists u. split; [exact Hp|].
  cbn [snd]. rewrite <- app_assoc. reflexivity.
Qed.

Lemma getOriginUrl_returns_git_answer_sample :
  let remote :=
    "https://user@dev.azure.com/myorg/spk-test-project/_git/new-repo" in
  shell (Sample.world None (Sample.git remote)) [] (originQuery ".")
  = Return remote
  /\ exists u,
       GitUrlParse (Sample.world None (Sample.git remote)) remote = Return u
       /\ snd (getOriginUrl None (Sample.world None (Sample.git remote)) []) =
          [Exec (originQuery ".") (Return remote);
           Log debug (Text ("Got git origin url "
                            ++ loggedForm u remote)%string)].
Proof.
  exact (getOriginUrl_returns_git_answer
           (Sample.world None
              (Sample.git "https://user@dev.azure.com/myorg/spk-test-project/_git/new-repo"))
           None [] _ eq_refl).
Defined.

(** X8.  [getAzdoOriginUrl] never runs a command.  When APP_REPO_URL is
    unset or empty it throws an Error saying that it is not running in a
    pipeline, and logs nothing. *)
Theorem getAzdoOriginUrl_without_variable env tr :
  commands (snd (getAzdoOriginUrl env tr)) = commands tr
  /\ (falsy (APP_REPO_URL env) = true ->
      getAzdoOriginUrl env tr =
      (Throw (Error "Unable to get azdo origin URL: Error: Not running in a pipeline - no AzDO variables."),
       tr)).
Proof.
  rewrite getAzdoOriginUrl_run. unfold falsy. split.
  - destruct (APP_REPO_URL env) as [originUrl|]; [|reflexivity].
    destruct (originUrl =? "")%string; [reflexivity|].
    destruct (GitUrlParse env originUrl); [reflexivity|].
    cbn [snd]. unfold commands. rewrite flat_map_app. cbn.
    apply app_nil_r.
  - destruct (APP_REPO_URL env) as [originUrl|]; [|reflexivity].
    intros ->. reflexivity.
Qed.

Lemma getAzdoOriginUrl_without_variable_sample :
  getAzdoOriginUrl (Sample.world (Some "") (Sample.git "")) [] =
  (Throw (Error "Unable to get azdo origin URL: Error: Not running in a pipeline - no AzDO variables."),
   []).
Proof.
  exact (proj2 (getAzdoOriginUrl_without_variable
                  (Sample.world (Some "") (Sample.git "")) []) eq_refl).
Defined.

(** X9.  [tryGetGitOrigin] hides the failure of the environment variable:
    when it throws, what it throws is the Error of [getOriginUrl], and the
    warning was logged before git was asked.  When it returns, it returns
    either the value of APP_REPO_URL, having run no command, or the answer
    of git to the origin query. *)
Theorem tryGetGitOrigin_outcomes env absRepoPath tr :
  let run := tryGetGitOrigin absRepoPath env tr in
  let c := originQuery match absRepoPath with
                       | Some d => d
                       | None => "."
                       end in
  (forall e, fst run = Throw e ->
     (exists text, e = Error ("Unable to get git origin URL: " ++ text)%string)
     /\ In (Log warn (Text "Could not get Git Origin for Azure DevOps - are you running 'spk' _not_ in a pipeline?"))
          (snd run))
  /\ (forall originUrl, fst run = Return originUrl ->
        (APP_REPO_URL env = Some originUrl /\ commands (snd run) = commands tr)
        \/ In (Exec c (Return originUrl)) (snd run)).
Proof.
  intros run c. subst run.
  rewrite tryGetGitOrigin_run, getAzdoOriginUrl_run.
  assert (Hfallback : forall tr0,
    let back := getOriginUrl absRepoPath env
                  (tr0 ++ [Log warn (Text "Could not get Git Origin for Azure DevOps - are you running 'spk' _not_ in a pipeline?")]) in
    (forall e, fst back = Throw e ->
       (exists text, e = Error ("Unable to get git origin URL: " ++ text)%string)
       /\ In (Log warn (Text "Could not get Git Origin for Azure DevOps - are you running 'spk' _not_ in a pipeline?"))
            (snd back))
    /\ (forall originUrl, fst back = Return originUrl ->
          In (Exec c (Return originUrl)) (snd back))).
  { intros tr0 back. subst back. rewrite getOriginUrl_run. fold c.
    destruct (shell env _ c) as [e | answer].
    - split; [|intros ? H; discriminate H].
      intros e' H. injection H as <-. split; [eexists; reflexivity|].
      cbn [snd]. rewrite !in_app_iff. cbn. tauto.
    - destruct (GitUrlParse env answer) as [e | u].
      + split; [|intros ? H; discriminate H].
        intros e' H. injection H as <-. split; [eexists; reflexivity|].
        cbn [snd]. rewrite !in_app_iff. cbn. tauto.
      + split; [intros ? H; discriminate H|].
        intros originUrl H. apply Return_inj in H. subst answer.
        cbn [snd]. rewrite !in_app_iff. cbn. tauto. }
  destruct (APP_REPO_URL env) as [value|].
  - destruct (value =? "")%string.
    + destruct (Hfallback tr) as [Hthrow Hret].
      split; [exact Hthrow | intros originUrl H; right; exact (Hret _ H)].
    + destruct (GitUrlParse env value) as [e | u].
      * destruct (Hfallback tr) as [Hthrow Hret].
        split; [exact Hthrow | intros originUrl H; right; exact (Hret _ H)].
      * split; [intros ? H; discriminate H|].
        intros originUrl H. apply Return_inj in H. subst value. left.
        split; [reflexivity|].
        cbn [snd]. unfold commands. rewrite flat_map_app. cbn.
        apply app_nil_r.
  - destruct (Hfallback tr) as [Hthrow Hret].
    split; [exact Hthrow | intros originUrl H; right; exact (Hret _ H)].
Qed.

Lemma tryGetGitOrigin_outcomes_sample :
  (exists text,
     Error "Unable to get git origin URL: fatal: no remote"
     = Error ("Unable to get git origin URL: " ++ text)%string)
  /\ In (Log warn (Text "Could not get Git Origin for Azure DevOps - are you running 'spk' _not_ in a pipeline?"))
       (snd (tryGetGitOrigin None
               (Sample.world None
                  (Sample.gitFailing "config" "fatal: no remote" "")) [])).
Proof.
  exact (proj1 (tryGetGitOrigin_outcomes
                  (Sample.world None
                     (Sample.gitFailing "config" "fatal: no remote" ""))
                  None []) _ eq_refl).
Defined.

(** X10.  The Error of an invalid protocol quotes the origin URL as it was
    given, credentials included: for a Visual Studio Online remote whose
    protocol is neither ssh nor https, the text of what [getRepositoryUrl]
    and [getPullRequestLink] throw contains the origin URL itself, not the
    form [safeGitUrlForLogging] would log. *)
Theorem invalid_protocol_error_quotes_origin
    env originUrl u baseBranch newBranch tr :
  GitUrlParse env originUrl = Return u ->
  includes (resource u) "dev.azure.com" = false ->
  includes (resource u) "visualstudio.com" = true ->
  toLowerCase (protocol u) <> "ssh" ->
  toLowerCase (protocol u) <> "https" ->
  (exists e, fst (getRepositoryUrl originUrl env tr) = Throw e
             /\ includes (render e) originUrl = true)
  /\ (exists e,
        fst (getPullRequestLink baseBranch newBranch originUrl env tr)
        = Throw e
        /\ includes (render e) originUrl = true).
Proof.
  intros Hp Hazure Hvs Hssh Hhttps. apply String.eqb_neq in Hssh, Hhttps.
  rewrite (getRepositoryUrl_parsed _ _ _ _ Hp).
  rewrite (getPullRequestLink_parsed _ _ _ _ _ _ Hp).
  rewrite Hazure, Hvs, Hssh, Hhttps.
  split; eexists; (split; [reflexivity|]);
    unfold undeterminedProvider, invalidProtocol; cbn [render];
    cbn [String.eqb append];
    repeat first [ apply includes_append_l, includes_refl
                 | apply includes_cons
                 | apply includes_append_r ].
Qed.

Lemma invalid_protocol_error_quotes_origin_sample :
  (exists e,
     fst (getRepositoryUrl
            "ftp://myorg.visualstudio.com/spk-test-project/_git/new-repo"
            (Sample.world None (Sample.git "")) []) = Throw e
     /\ includes (render e)
          "ftp://myorg.visualstudio.com/spk-test-project/_git/new-repo"
        = true)
  /\ (exists e,
        fst (getPullRequestLink "master" "feature"
               "ftp://myorg.visualstudio.com/spk-test-project/_git/new-repo"
               (Sample.world None (Sample.git "")) []) = Throw e
        /\ includes (render e)
             "ftp://myorg.visualstudio.com/spk-test-project/_git/new-repo"
           = true).
Proof.
  refine (invalid_protocol_error_quotes_origin
            (Sample.world None (Sample.git ""))
            "ftp://myorg.visualstudio.com/spk-test-project/_git/new-repo"
            _ "master" "feature" [] eq_refl eq_refl eq_refl _ _);
    discriminate.
Defined.

(** X16.  [getRepositoryName] returns exactly when the URL parser accepts
    the origin and the parsed resource contains dev.azure.com, contains
    visualstudio.com or is github.com; it then returns the parsed name,
    whatever the protocol, so also for remotes [getRepositoryUrl] rejects
    for their protocol. *)
Theorem getRepositoryName_returns_iff env originUrl repoName tr :
  fst (getRepositoryName originUrl env tr) = Return repoName <->
  exists u,
    GitUrlParse env originUrl = Return u
    /\ repoName = name u
    /\ (includes (resource u) "dev.azure.com" = true
        \/ includes (resource u) "visualstudio.com" = true
        \/ resource u = "github.com").
Proof.
  destruct (GitUrlParse env originUrl) as [e | u] eqn:Hp.
  - unfold getRepositoryName. step_monad. rewrite Hp. split.
    + intros H; discriminate H.
    + intros (u & Habs & _). discriminate Habs.
  - rewrite (getRepositoryName_parsed _ _ _ _ Hp). split.
    + intros H. exists u. split; [reflexivity|].
      destruct (includes (resource u) "dev.azure.com");
        [apply Return_inj in H; auto|].
      destruct (includes (resource u) "visualstudio.com");
        [apply Return_inj in H; auto|].
      destruct (resource u =? "github.com")%string eqn:Hgh;
        [apply Return_inj in H; apply String.eqb_eq in Hgh; auto|].
      destruct (negb (startsWith (resource u) "http")); discriminate H.
    + intros (u' & Hu & -> & Hsupported). injection Hu as <-.
      destruct (includes (resource u) "dev.azure.com"); [reflexivity|].
      destruct (includes (resource u) "visualstudio.com"); [reflexivity|].
      destruct Hsupported as [H | [H | H]]; try discriminate H.
      rewrite H. reflexivity.
Qed.

Lemma getRepositoryName_returns_iff_sample :
  fst (getRepositoryName
         "ftp://myorg.visualstudio.com/spk-test-project/_git/new-repo"
         (Sample.world None (Sample.git "")) []) = Return "new-repo".
Proof.
  refine (proj2 (getRepositoryName_returns_iff
                   (Sample.world None (Sample.git ""))
                   "ftp://myorg.visualstudio.com/spk-test-project/_git/new-repo"
                   "new-repo" []) _).
  eexists. split; [reflexivity|]. split; [reflexivity|].
  right. left. reflexivity.
Defined.

(** ** Further properties of the workflow *)

Ltac unfold_commands :=
  unfold showCurrent, createBranch, addPaths, commit, push, originQuery,
    checkout, deleteLocal in *.

Ltac member :=
  cbn [In]; repeat first [left; reflexivity | right].

Ltac returns_fact Hparse :=
  intros url link Hnone Hin Hlink;
  first
    [ discriminate Hnone
    | cbn [In] in Hin;
      repeat (destruct Hin as [Hin | Hin];
              [first [ discriminate Hin
                     | unfold_commands; discriminate Hin
                     | injection Hin as Hin; subst url ] | ]);
      try contradiction;
      first
        [ rewrite (getPullRequestLink_unparsed _ _ _ _ _ _ Hparse) in Hlink;
          discriminate Hlink
        | rewrite (getPullRequestLink_parsed _ _ _ _ _ _ Hparse) in Hlink;
          repeat match goal with
                 | H : _ = true |- _ => rewrite ?H in Hlink; clear H
                 | H : _ = false |- _ => rewrite ?H in Hlink; clear H
                 end;
          first [ discriminate Hlink
                | apply Return_inj in Hlink; subst link;
                  split; [reflexivity | member] ] ] ].

Ltac failure_text_fact :=
  intros cmd err Hin; cbn [In] in Hin;
  repeat (destruct Hin as [Hin | Hin];
          [first [ discriminate Hin
                 | injection Hin as Hc He; subst cmd err;
                   eexists; split; [reflexivity|]; split;
                   [ intros Hne;
                     first [ exfalso; apply Hne; reflexivity
                           | cbn; ends_with ]
                   | intros Heq;
                     first [ unfold_commands; discriminate Heq
                           | split; [reflexivity | member] ] ] ] | ]);
  try contradiction.

Ltac distinct_fact :=
  unfold commands; cbn [flat_map app];
  repeat (constructor;
          [ cbn [In]; unfold_commands; intuition discriminate | ]);
  constructor.

Ltac outcome_facts Hparse :=
  unfold WorkflowOutcomes, startingBranch; cbn [fst snd app];
  repeat match goal with H : shell _ _ _ = _ |- _ => rewrite ?H; clear H end;
  split; [returns_fact Hparse|];
  split; [failure_text_fact|];
  split; [distinct_fact | cbn; lia].

Ltac cleanup_outcomes Hparse :=
  cbv beta iota;
  rewrite checkoutBranch_run; cbv beta iota zeta;
  next_command; cbv beta iota; [outcome_facts Hparse|];
  rewrite deleteBranch_run; cbv beta iota zeta;
  next_command; cbv beta iota; outcome_facts Hparse.

Lemma workflow_outcomes env newBranchName pathspecs :
  WorkflowOutcomes env newBranchName
    (checkoutCommitPushCreatePRLink newBranchName pathspecs env []).
Proof.
  assert (Hnoparse : True) by exact I.
  unfold checkoutCommitPushCreatePRLink.
  cbv beta iota delta [bind try_catch ret throw logger].
  rewrite getCurrentBranch_run; cbv zeta. fold (showCurrent env).
  destruct (shell env [] (showCurrent env)) as [e1 | cur] eqn:H1;
    cbv beta iota.
  { outcome_facts Hnoparse. }
  rewrite checkoutBranch_run; cbv beta iota zeta.
  next_command; cbv beta iota; [outcome_facts Hnoparse|].
  rewrite commitPath_run; cbv beta iota zeta.
  next_command; cbv beta iota; [outcome_facts Hnoparse|].
  next_command; cbv beta iota; [outcome_facts Hnoparse|].
  rewrite pushBranch_run; cbv beta iota zeta.
  next_command; cbv beta iota; [outcome_facts Hnoparse|].
  rewrite getOriginUrl_run; cbv beta iota zeta.
  next_command; cbv beta iota; [outcome_facts Hnoparse|].
  destruct (GitUrlParse env r3) as [e | u] eqn:Hparse; cbv beta iota;
    [outcome_facts Hparse|].
  rewrite (getPullRequestLink_parsed _ _ _ _ _ _ Hparse).
  destruct (includes (resource u) "dev.azure.com") eqn:Hazure;
    [cleanup_outcomes Hparse|].
  destruct (includes (resource u) "visualstudio.com") eqn:Hvs.
  - destruct (toLowerCase (protocol u) =? "ssh")%string eqn:Hssh;
      [cleanup_outcomes Hparse|].
    destruct (toLowerCase (protocol u) =? "https")%string eqn:Hhttps;
      [cleanup_outcomes Hparse|].
    cbv beta iota. outcome_facts Hparse.
  - destruct (resource u =? "github.com")%string eqn:Hgh;
      cleanup_outcomes Hparse.
Qed.

(** X11.  The workflow returns exactly when none of its commands failed and
    a pull request link could be built for the origin git answered with;
    that link is then announced at level info. *)
Theorem workflow_returns_iff env newBranchName pathspecs :
  let run := checkoutCommitPushCreatePRLink newBranchName pathspecs env [] in
  (fst run = Return tt <->
   existsb failed (snd run) = false
   /\ exists url link,
        In (Exec (originQuery ".") (Return url)) (snd run)
        /\ fst (getPullRequestLink (startingBranch env) newBranchName
                  url env []) = Return link)
  /\ (forall url link,
        fst run = Return tt ->
        In (Exec (originQuery ".") (Return url)) (snd run) ->
        fst (getPullRequestLink (startingBranch env) newBranchName url env [])
        = Return link ->
        In (Log info (Text ("Link to create PR: " ++ link)%string)) (snd run)).
Proof.
  intros run.
  destruct (workflow_cases env newBranchName pathspecs)
    as (_ & _ & Hfail & Hwhole & _).
  destruct (workflow_outcomes env newBranchName pathspecs)
    as (Hreturns & _).
  fold run in Hfail, Hwhole, Hreturns.
  assert (Hnone : fst run = Return tt -> existsb failed (snd run) = false).
  { intros Hrun. destruct (existsb failed (snd run)); [|reflexivity].
    contradiction (Hfail eq_refl). }
  split; [split|].
  - intros Hrun. split; [exact (Hnone Hrun)|].
    destruct (Hwhole Hrun) as (url & link & _ & Hin & Hlink).
    exists url, link. split; assumption.
  - intros (Hno & url & link & Hin & Hlink).
    exact (proj1 (Hreturns url link Hno Hin Hlink)).
  - intros url link Hrun Hin Hlink.
    exact (proj2 (Hreturns url link (Hnone Hrun) Hin Hlink)).
Qed.

Lemma workflow_returns_iff_sample :
  fst (checkoutCommitPushCreatePRLink "feature" ["a.yaml"]
         (Sample.world None
            (Sample.git "git@github.com:CatalystCode/spk.git")) [])
  = Return tt.
Proof.
  refine (proj2 (proj1 (workflow_returns_iff
                          (Sample.world None
                             (Sample.git "git@github.com:CatalystCode/spk.git"))
                          "feature" ["a.yaml"])) _).
  split; [reflexivity|].
  exists "git@github.com:CatalystCode/spk.git",
    "https://github.com/CatalystCode/spk/compare/master...feature?expand=1".
  split; [member | reflexivity].
Defined.

(** X12.  An origin of no supported provider does not stop the workflow:
    when no command fails and git answers the origin query with a URL whose
    parsed resource names none of the supported providers, the workflow
    returns, having logged the error and announced, in place of a link, the
    sentence asking for the pull request to be opened manually. *)
Theorem workflow_returns_on_unsupported_provider
    env newBranchName pathspecs url u :
  let run := checkoutCommitPushCreatePRLink newBranchName pathspecs env [] in
  existsb failed (snd run) = false ->
  In (Exec (originQuery ".") (Return url)) (snd run) ->
  GitUrlParse env url = Return u ->
  includes (resource u) "dev.azure.com" = false ->
  includes (resource u) "visualstudio.com" = false ->
  resource u <> "github.com" ->
  fst run = Return tt
  /\ In (Log info (Text ("Link to create PR: " ++ unsupportedProviderHelp)%string))
       (snd run).
Proof.
  intros run Hnone Hin Hp Hazure Hvs Hgh.
  destruct (workflow_outcomes env newBranchName pathspecs)
    as (Hreturns & _).
  apply (Hreturns url unsupportedProviderHelp Hnone Hin).
  apply String.eqb_neq in Hgh.
  rewrite (getPullRequestLink_parsed _ _ _ _ _ _ Hp), Hazure, Hvs, Hgh.
  reflexivity.
Qed.

Lemma workflow_returns_on_unsupported_provider_sample :
  let run := checkoutCommitPushCreatePRLink "feature" ["a.yaml"]
               (Sample.world None
                  (Sample.git "https://gitlab.com/group/project.git")) [] in
  fst run = Return tt
  /\ In (Log info (Text ("Link to create PR: " ++ unsupportedProviderHelp)%string))
       (snd run).
Proof.
  refine (workflow_returns_on_unsupported_provider
            (Sample.world None
               (Sample.git "https://gitlab.com/group/project.git"))
            "feature" ["a.yaml"] "https://gitlab.com/group/project.git" _
            eq_refl _ eq_refl eq_refl eq_refl _).
  - member.
  - discriminate.
Defined.

(** X13.  The text of a failing command survives in what the workflow
    throws, except for the first command.  When a command other than the
    query of the current branch fails, the message of the cause of the
    GIT_OPS_ERR error ends with the text of that failure.  When the query of
    the current branch fails, the message is a fixed one that does not
    carry the failure, which is logged at level error instead. *)
Theorem workflow_failure_keeps_git_text env newBranchName pathspecs c e :
  let run := checkoutCommitPushCreatePRLink newBranchName pathspecs env [] in
  In (Exec c (Throw e)) (snd run) ->
  exists m,
    fst run = Throw (buildError GIT_OPS_ERR workflowKey (Some (Error m)))
    /\ (c <> showCurrent env -> exists pre, m = (pre ++ render e)%string)
    /\ (c = showCurrent env ->
        m = noCurrentBranch /\ In (Log error (Obj e)) (snd run)).
Proof.
  intros run Hin.
  destruct (workflow_outcomes env newBranchName pathspecs)
    as (_ & Htext & _).
  exact (Htext c e Hin).
Qed.

Lemma workflow_failure_keeps_git_text_sample :
  let run := checkoutCommitPushCreatePRLink "feature" ["a.yaml"]
               (Sample.world None
                  (Sample.gitFailing "push" "remote: rejected" "")) [] in
  exists m,
    fst run = Throw (buildError GIT_OPS_ERR workflowKey (Some (Error m)))
    /\ (push "feature" <> showCurrent (Sample.world None
                             (Sample.gitFailing "push" "remote: rejected" "")) ->
        exists pre, m = (pre ++ "remote: rejected")%string)
    /\ (push "feature" = showCurrent (Sample.world None
                            (Sample.gitFailing "push" "remote: rejected" "")) ->
        m = noCurrentBranch
        /\ In (Log error (Obj (Foreign "remote: rejected"))) (snd run)).
Proof.
  refine (workflow_failure_keeps_git_text
            (Sample.world None
               (Sample.gitFailing "push" "remote: rejected" ""))
            "feature" ["a.yaml"] (push "feature")
            (Foreign "remote: rejected") _).
  member.
Defined.

(** X14.  The workflow never runs a git command twice, and never more than
    eight commands. *)
Theorem workflow_never_repeats_a_command env newBranchName pathspecs :
  let run := checkoutCommitPushCreatePRLink newBranchName pathspecs env [] in
  NoDup (commands (snd run)) /\ length (commands (snd run)) <= 8.
Proof.
  intros run.
  destruct (workflow_outcomes env newBranchName pathspecs)
    as (_ & _ & Hdistinct & Hcount).
  split; assumption.
Qed.

Section UnaffectedByOverride.

Variable value : option string.
Variable env : Env.

Lemma unaffected_ret {E A} (a : A) : unaffectedBy value env (@ret E A a).
Proof. intros tr. reflexivity. Qed.

Lemma unaffected_throw {E A} (e : E) : unaffectedBy value env (@throw E A e).
Proof. intros tr. reflexivity. Qed.

Lemma unaffected_logger {E} lvl p : unaffectedBy value env (@logger E lvl p).
Proof. intros tr. reflexivity. Qed.

Lemma unaffected_exec prog arguments dir :
  unaffectedBy value env (exec prog arguments dir).
Proof. intros tr. reflexivity. Qed.

Lemma unaffected_parseUrl url : unaffectedBy value env (parseUrl url).
Proof. intros tr. reflexivity. Qed.

Lemma unaffected_bind {E A B} (m : M E A) (k : A -> M E B) :
  unaffectedBy value env m -> (forall a, unaffectedBy value env (k a)) ->
  unaffectedBy value env (bind m k).
Proof.
  intros Hm Hk tr. unfold bind. rewrite Hm.
  destruct (m env tr) as [[e | a] tr']; [reflexivity | apply Hk].
Qed.

Lemma unaffected_try_catch {E E' A} (m : M E A) (h : E -> M E' A) :
  unaffectedBy value env m -> (forall e, unaffectedBy value env (h e)) ->
  unaffectedBy value env (try_catch m h).
Proof.
  intros Hm Hh tr. unfold try_catch. rewrite Hm.
  destruct (m env tr) as [[e | a] tr']; [apply Hh | reflexivity].
Qed.

Lemma unaffected_if {E A} (b : bool) (m1 m2 : M E A) :
  unaffectedBy value env m1 -> unaffectedBy value env m2 ->
  unaffectedBy value env (if b then m1 else m2).
Proof. destruct b; intros H1 H2; assumption. Qed.

Lemma unaffected_getCurrentBranch repoDir :
  unaffectedBy value env (getCurrentBranch repoDir).
Proof. intros tr. reflexivity. Qed.

Ltac unaffected :=
  repeat first
    [ apply unaffected_ret | apply unaffected_throw | apply unaffected_logger
    | apply unaffected_exec | apply unaffected_parseUrl
    | apply unaffected_getCurrentBranch
    | apply unaffected_try_catch | apply unaffected_bind
    | apply unaffected_if | intro ].

Lemma unaffected_getOriginUrl absRepositoryPath :
  unaffectedBy value env (getOriginUrl absRepositoryPath).
Proof. unfold getOriginUrl, safeGitUrlForLogging. unaffected. Qed.

Lemma unaffected_getPullRequestLink baseBranch newBranch originUrl :
  unaffectedBy value env (getPullRequestLink baseBranch newBranch originUrl).
Proof. unfold getPullRequestLink. unaffected. Qed.

Lemma unaffected_getRepositoryUrl originUrl :
  unaffectedBy value env (getRepositoryUrl originUrl).
Proof. unfold getRepositoryUrl. unaffected. Qed.

Lemma unaffected_getRepositoryName originUrl :
  unaffectedBy value env (getRepositoryName originUrl).
Proof. unfold getRepositoryName, lift. unaffected. Qed.

Lemma unaffected_workflow newBranchName pathspecs :
  unaffectedBy value env
    (checkoutCommitPushCreatePRLink newBranchName pathspecs).
Proof.
  unfold checkoutCommitPushCreatePRLink.
  repeat first
    [ apply unaffected_getOriginUrl | apply unaffected_getPullRequestLink
    | apply unaffected_getCurrentBranch
    | apply unaffected_try_catch | apply unaffected_bind
    | apply unaffected_throw | apply unaffected_logger | intro ];
  unfold checkoutBranch, commitPath, pushBranch, deleteBranch; unaffected.
Qed.

End UnaffectedByOverride.

(** X15.  The workflow and the resolver operations do not look at
    APP_REPO_URL: with any other value of the variable they run the same
    commands, log the same lines and end the same way.  The origin of the
    workflow is always the one git reports. *)
Theorem workflow_ignores_APP_REPO_URL env value tr :
  (forall newBranchName pathspecs,
     checkoutCommitPushCreatePRLink newBranchName pathspecs
       (withAppRepoUrl value env) tr =
     checkoutCommitPushCreatePRLink newBranchName pathspecs env tr)
  /\ (forall absRepositoryPath,
        getOriginUrl absRepositoryPath (withAppRepoUrl value env) tr =
        getOriginUrl absRepositoryPath env tr)
  /\ (forall originUrl,
        getRepositoryName originUrl (withAppRepoUrl value env) tr =
        getRepositoryName originUrl env tr
        /\ getRepositoryUrl originUrl (withAppRepoUrl value env) tr =
           getRepositoryUrl originUrl env tr)
  /\ (forall baseBranch newBranch originUrl,
        getPullRequestLink baseBranch newBranch originUrl
          (withAppRepoUrl value env) tr =
        getPullRequestLink baseBranch newBranch originUrl env tr).
Proof.
  repeat match goal with |- _ /\ _ => split end.
  - intros newBranchName pathspecs. apply unaffected_workflow.
  - intros absRepositoryPath. apply unaffected_getOriginUrl.
  - intros originUrl. split;
      [apply unaffected_getRepositoryName | apply unaffected_getRepositoryUrl].
  - intros baseBranch newBranch originUrl.
    apply unaffected_getPullRequestLink.
Qed.
